(** * A shallow embedding of [naive_bayes.py] (class [Bayes_Classifier])

    Python values are modelled as follows.
    - [str] is [string]; a character is an [ascii], read as a code point
      below 256.
    - [int] counters only grow from zero: they are [nat].
    - [float] is idealised as a real number [R]; [float('-inf')] is the extra
      element [NegInf] of [xreal]. What is proved of the numbers is proved of
      exact arithmetic; the module [Binary64] gives the guarded quotients a
      second time on binary64 numbers, where they round, overflow and
      underflow.
    - a [dict] keyed by the two labels is a [PerLabel] record, a
      [defaultdict(int)] keyed by tokens a [gmap string nat], a [set] of
      tokens a [gset string].
    - methods run in a state-and-exception monad over the instance [self]. *)

From Stdlib Require Import Reals Lra Ascii.
From Stdlib Require Import Floats.PrimFloat Numbers.Cyclic.Int63.Uint63.
From stdpp Require Import gmap strings list fin_maps.

(** ** Python string primitives *)

Module PyStr.

(** [len(s)] *)
Definition len (s : string) : nat := String.length s.

(** [s[:-n]] for a positive [n]: everything but the last [n] characters,
    and the empty string when [s] is no longer than [n]. *)
Definition drop_end (n : nat) (s : string) : string :=
  String.substring 0 (len s - n) s.

(** [s.endswith(suffix)] *)
Definition endswith (s suffix : string) : bool :=
  (len suffix <=? len s)
  && String.eqb (String.substring (len s - len suffix) (len suffix) s) suffix.

(** Code point of a character. *)
Definition ord (c : ascii) : nat := nat_of_ascii c.

(** [c.isspace()] on code points below 256: tab, line feed, vertical tab,
    form feed, carriage return, the four separators 28..31, space, next
    line (133) and no-break space (160). *)
Definition isspace (c : ascii) : bool :=
  let n := ord c in
  ((9 <=? n) && (n <=? 13)) || ((28 <=? n) && (n <=? 32))
  || (n =? 133) || (n =? 160).

(** [c.lower()] on code points below 256: the letters A..Z and the Latin-1
    capitals 192..222 (the multiplication sign 215 apart) move up by 32. *)
Definition lower_char (c : ascii) : ascii :=
  let n := ord c in
  if ((65 <=? n) && (n <=? 90))
     || ((192 <=? n) && (n <=? 222) && negb (n =? 215))
  then ascii_of_nat (n + 32) else c.

(** [s.lower()] *)
Fixpoint lower (s : string) : string :=
  match s with
  | EmptyString => EmptyString
  | String c s' => String (lower_char c) (lower s')
  end.

(** [s.lstrip()] *)
Fixpoint lstrip (s : string) : string :=
  match s with
  | EmptyString => EmptyString
  | String c s' => if isspace c then lstrip s' else s
  end.

(** [s.rstrip()] *)
Fixpoint rstrip (s : string) : string :=
  match s with
  | EmptyString => EmptyString
  | String c s' =>
      match rstrip s' with
      | EmptyString => if isspace c then EmptyString else String c EmptyString
      | r => String c r
      end
  end.

(** [s.strip()] *)
Definition strip (s : string) : string := rstrip (lstrip s).

(** The loop of [s.split()]: [cur] is the token being read. *)
Fixpoint split_go (cur : string) (s : string) : list string :=
  match s with
  | EmptyString => if String.eqb cur "" then [] else [cur]
  | String c s' =>
      if isspace c
      then (if String.eqb cur "" then split_go "" s'
            else cur :: split_go "" s')
      else split_go (cur +:+ String c "") s'
  end.

(** [s.split()]: the maximal runs of non-whitespace characters. *)
Definition split (s : string) : list string := split_go "" s.

(** The loop of [s.split(sep, maxsplit)] for a one-character separator. *)
Fixpoint split_sep_go (sep : ascii) (maxsplit : nat) (cur : string)
    (s : string) : list string :=
  match s with
  | EmptyString => [cur]
  | String c s' =>
      match maxsplit with
      | 0 => [cur +:+ s]
      | S k =>
          if Ascii.eqb c sep then cur :: split_sep_go sep k "" s'
          else split_sep_go sep maxsplit (cur +:+ String c "") s'
      end
  end.

(** [s.split(sep, maxsplit)] *)
Definition split_sep (sep : ascii) (maxsplit : nat) (s : string) : list string :=
  split_sep_go sep maxsplit "" s.

(** Number of occurrences of a character. *)
Fixpoint count_char (sep : ascii) (s : string) : nat :=
  match s with
  | EmptyString => 0
  | String c s' => (if Ascii.eqb c sep then 1 else 0) + count_char sep s'
  end.

End PyStr.

(** ** The stemmer *)

Definition endings : list string :=
  [ "ational"; "fulness"; "iveness"; "ousness"; "ization";
    "biliti"; "tional"; "lessli"; "entli"; "ation"; "alism";
    "aliti"; "ousli"; "fulli"; "enci"; "anci"; "abli";
    "izer"; "ator"; "logi"; "ical"; "ness"; "ment"; "ingly";
    "edly"; "ing"; "ers"; "ies"; "ied"; "ly"; "ed"; "es"; "s" ].

(** The [for ending in endings] loop with its [break]: the first ending the
    word ends with and that leaves at least three characters is removed. *)
Fixpoint strip_first_ending (es : list string) (word : string) : string :=
  match es with
  | [] => word
  | ending :: rest =>
      if PyStr.endswith word ending
         && (3 <=? PyStr.len word - PyStr.len ending)
      then PyStr.drop_end (PyStr.len ending) word
      else strip_first_ending rest word
  end.

(** One of the three statements
    [if word.endswith(suffix) and len(word) > bound: word = word[:-len(suffix)]]. *)
Definition strip_if_longer (suffix : string) (bound : nat) (word : string) : string :=
  if PyStr.endswith word suffix && (bound <? PyStr.len word)
  then PyStr.drop_end (PyStr.len suffix) word
  else word.

(** The three statements after the loop, in the order of the source. *)
Definition strip_tail (word : string) : string :=
  strip_if_longer "e" 3 (strip_if_longer "ly" 4 (strip_if_longer "er" 4 word)).

Definition _stemWord (word : string) : string :=
  if PyStr.len word <=? 3 then word
  else
    let saved := word in
    let word := strip_first_ending endings word in
    let word := strip_tail word in
    if String.eqb word "" then saved else word.

(** ** Exceptions and the two monads *)

(** The exceptions the modelled statements can raise. [LoopBound] is not a
    Python exception: it marks a [while] loop cut off by the bound its model
    is given. *)
Inductive exn : Type :=
  | IndexError | KeyError | ZeroDivisionError | ValueError | LoopBound.

Inductive Result (A : Type) : Type :=
  | Ok (a : A)
  | Raise (e : exn).
Arguments Ok {A} a.
Arguments Raise {A} e.

Definition bindR {A B : Type} (r : Result A) (k : A -> Result B) : Result B :=
  match r with
  | Ok a => k a
  | Raise e => Raise e
  end.

Notation "'let!' x ':=' r 'in' k" := (bindR r (fun x => k))
  (at level 10, x name, r at level 100, k at level 200, only parsing).

(** A [for] loop over a list that updates local variables [b] and may raise. *)
Fixpoint foldR {A B : Type} (body : B -> A -> Result B) (l : list A) (b : B)
    : Result B :=
  match l with
  | [] => Ok b
  | x :: l' => let! b' := body b x in foldR body l' b'
  end.

(** ** Numbers *)

(** A float: a real number or [float('-inf')]. Positive infinity and NaN
    have no counterpart. *)
Inductive xreal : Type :=
  | NegInf
  | Fin (r : R).

(** [x + y] *)
Definition xadd (x y : xreal) : xreal :=
  match x, y with
  | Fin a, Fin b => Fin (a + b)
  | _, _ => NegInf
  end.

(** [x > y] *)
Definition xgtb (x y : xreal) : bool :=
  match x, y with
  | NegInf, _ => false
  | Fin _, NegInf => true
  | Fin a, Fin b => if Rgt_dec a b then true else false
  end.

(** [x / y], which raises on a zero divisor. *)
Definition truediv (x y : R) : Result R :=
  if Req_dec_T y 0%R then Raise ZeroDivisionError else Ok (x / y)%R.

(** [math.log(x)], which raises unless [x] is positive. *)
Definition math_log (x : R) : Result R :=
  if Rlt_dec 0%R x then Ok (ln x) else Raise ValueError.

(** The floor [1e-12] of both clamps. *)
Definition floor_value : R := 1e-12%R.

(** [if denom == 0: denom = 1] *)
Definition guard_denominator (denom : R) : R :=
  if Req_dec_T denom 0%R then 1%R else denom.

(** [if value <= 0: value = 1e-12] *)
Definition clamp (value : R) : R :=
  if Rle_dec value 0%R then floor_value else value.

(** ** Labels and the dictionaries keyed by them *)

Inductive Label : Type := L1 | L5.

(** The label as the string the source uses. *)
Definition label_str (l : Label) : string :=
  match l with
  | L1 => "1"
  | L5 => "5"
  end.

(** [self.labels = ('1', '5')] *)
Definition labels : list Label := [L1; L5].

Definition label_eqb (a b : Label) : bool :=
  match a, b with
  | L1, L1 | L5, L5 => true
  | _, _ => false
  end.

(** The test [label in self.wordCounts] on a string, with the key found. *)
Definition find_label (s : string) : option Label :=
  if String.eqb s (label_str L1) then Some L1
  else if String.eqb s (label_str L5) then Some L5
  else None.

(** A dictionary of the instance: it holds both labels from [_resetModel] on
    and no statement adds or removes a key. *)
Record PerLabel (A : Type) : Type := mkPerLabel { at1 : A; at5 : A }.
Arguments mkPerLabel {A} at1 at5.
Arguments at1 {A} p.
Arguments at5 {A} p.

(** [{label: v for label in self.labels}] *)
Definition pl_const {A : Type} (v : A) : PerLabel A := mkPerLabel v v.

(** [d[label]] *)
Definition pl_get {A : Type} (d : PerLabel A) (l : Label) : A :=
  match l with
  | L1 => at1 d
  | L5 => at5 d
  end.

(** [d[label] = v] *)
Definition pl_set {A : Type} (d : PerLabel A) (l : Label) (v : A) : PerLabel A :=
  match l with
  | L1 => mkPerLabel v (at5 d)
  | L5 => mkPerLabel (at1 d) v
  end.

(** A local dictionary keyed by labels, filled key by key from [{}]. *)
Definition LDict (A : Type) : Type := Label -> option A.

Definition ld_empty {A : Type} : LDict A := fun _ => None.

(** [d[label] = v] *)
Definition ld_set {A : Type} (d : LDict A) (l : Label) (v : A) : LDict A :=
  fun k => if label_eqb k l then Some v else d k.

(** [d[label]] *)
Definition ld_getitem {A : Type} (d : LDict A) (l : Label) : Result A :=
  match d l with
  | Some v => Ok v
  | None => Raise KeyError
  end.

(** [d.get(label, dflt)] *)
Definition ld_get {A : Type} (d : LDict A) (l : Label) (dflt : A) : A :=
  match d l with
  | Some v => v
  | None => dflt
  end.

(** ** The instance *)

Record Classifier : Type := mkClassifier {
  alphaVal : R;
  useBigrams : bool;
  stopWords : gset string;
  wordCounts : PerLabel (gmap string nat);
  totalWordCounts : PerLabel nat;
  docCounts : PerLabel nat;
  totalDocs : nat;
  vocabSet : gset string;
  logPriors : PerLabel xreal;
  vocabSize : nat
}.

Definition set_wordCounts (v : PerLabel (gmap string nat)) (self : Classifier) : Classifier :=
  mkClassifier (alphaVal self) (useBigrams self) (stopWords self)
    v (totalWordCounts self) (docCounts self) (totalDocs self)
    (vocabSet self) (logPriors self) (vocabSize self).

Definition set_totalWordCounts (v : PerLabel nat) (self : Classifier) : Classifier :=
  mkClassifier (alphaVal self) (useBigrams self) (stopWords self)
    (wordCounts self) v (docCounts self) (totalDocs self)
    (vocabSet self) (logPriors self) (vocabSize self).

Definition set_docCounts (v : PerLabel nat) (self : Classifier) : Classifier :=
  mkClassifier (alphaVal self) (useBigrams self) (stopWords self)
    (wordCounts self) (totalWordCounts self) v (totalDocs self)
    (vocabSet self) (logPriors self) (vocabSize self).

Definition set_totalDocs (v : nat) (self : Classifier) : Classifier :=
  mkClassifier (alphaVal self) (useBigrams self) (stopWords self)
    (wordCounts self) (totalWordCounts self) (docCounts self) v
    (vocabSet self) (logPriors self) (vocabSize self).

Definition set_vocabSet (v : gset string) (self : Classifier) : Classifier :=
  mkClassifier (alphaVal self) (useBigrams self) (stopWords self)
    (wordCounts self) (totalWordCounts self) (docCounts self) (totalDocs self)
    v (logPriors self) (vocabSize self).

Definition set_logPriors (v : PerLabel xreal) (self : Classifier) : Classifier :=
  mkClassifier (alphaVal self) (useBigrams self) (stopWords self)
    (wordCounts self) (totalWordCounts self) (docCounts self) (totalDocs self)
    (vocabSet self) v (vocabSize self).

Definition set_vocabSize (v : nat) (self : Classifier) : Classifier :=
  mkClassifier (alphaVal self) (useBigrams self) (stopWords self)
    (wordCounts self) (totalWordCounts self) (docCounts self) (totalDocs self)
    (vocabSet self) (logPriors self) v.

(** A method body: it reads and writes [self] and returns or raises. *)
Definition M (A : Type) : Type := Classifier -> Result (A * Classifier).

Definition ret {A : Type} (a : A) : M A := fun self => Ok (a, self).

Definition bind {A B : Type} (m : M A) (k : A -> M B) : M B :=
  fun self =>
    match m self with
    | Ok (a, self') => k a self'
    | Raise e => Raise e
    end.

Notation "'let*' x ':=' m 'in' k" := (bind m (fun x => k))
  (at level 10, x name, m at level 100, k at level 200, only parsing).

(** Reading [self]. *)
Definition get : M Classifier := fun self => Ok (self, self).

(** An assignment to an attribute of [self]. *)
Definition modify (f : Classifier -> Classifier) : M unit :=
  fun self => Ok (tt, f self).

(** A computation on local values inside a method. *)
Definition lift {A : Type} (r : Result A) : M A :=
  fun self =>
    match r with
    | Ok a => Ok (a, self)
    | Raise e => Raise e
    end.

(** A [for] loop whose body works on [self] only. *)
Fixpoint for_each {A : Type} (l : list A) (body : A -> M unit) : M unit :=
  match l with
  | [] => ret tt
  | x :: l' => let* _ := body x in for_each l' body
  end.

(** A [for] loop whose body also updates local variables [b]. *)
Fixpoint foldM {A B : Type} (body : B -> A -> M B) (l : list A) (b : B) : M B :=
  match l with
  | [] => ret b
  | x :: l' => let* b' := body b x in foldM body l' b'
  end.

(** ** The methods *)

(** The literal of [_buildStopwords], line breaks and indentation included. *)
Definition stopword_base : string := "
        a about above after again against all am an and any are aren't as at
        be because been before being below between both but by
        can can't cannot could couldn't did didn't do does doesn't doing don't down during
        each few for from further
        had hadn't has hasn't have haven't having he he'd he'll he's her here here's hers herself him himself his how how's
        i i'd i'll i'm i've if in into is isn't it it's its itself
        let's me more most mustn't my myself
        no nor not of off on once only or other ought our ours ourselves out over own
        same shan't she she'd she'll she's should shouldn't so some such than that that's the their theirs them themselves then there there's these they they'd they'll they're they've this those through to too under until up very
        was wasn't we we'd we'll we're we've were weren't what what's when when's where where's which while who who's whom why why's with won't would wouldn't you you'd you'll you're you've your yours yourself yourselves
        ".

Definition _buildStopwords : gset string :=
  fold_left
    (fun (temp : gset string) part =>
       let cleaned := PyStr.lower (PyStr.strip part) in
       if String.eqb cleaned "" then temp else {[cleaned]} ∪ temp)
    (PyStr.split stopword_base) ∅.

(** The characters [re.sub(r"[^a-z0-9\s']", ...)] leaves in place. *)
Definition kept_char (c : ascii) : bool :=
  let n := PyStr.ord c in
  ((97 <=? n) && (n <=? 122)) || ((48 <=? n) && (n <=? 57))
  || PyStr.isspace c || (n =? 39).

(** [re.sub(r"[^a-z0-9\s']", "  ", s)]: every other character becomes two
    spaces. *)
Fixpoint clean (s : string) : string :=
  match s with
  | EmptyString => EmptyString
  | String c s' =>
      if kept_char c then String c (clean s')
      else String " " (String " " (clean s'))
  end.

Definition _tokenizeText (text : string) : M (list string) :=
  let lowered := PyStr.lower text in
  let cleaned := clean lowered in
  let rawTokens := PyStr.split cleaned in
  foldM
    (fun filtered tok =>
       let* self := get in
       if decide (tok ∈ stopWords self) then ret filtered
       else ret (filtered ++ [_stemWord tok]))
    rawTokens [].

(** [tokens[idx]] *)
Definition getitem (tokens : list string) (idx : nat) : Result string :=
  match tokens !! idx with
  | Some t => Ok t
  | None => Raise IndexError
  end.

(** The loop [while idx < len(tokens) - 1], run for at most [bound] rounds. *)
Fixpoint bigram_loop (bound : nat) (tokens : list string) (idx : nat)
    (features : list string) : Result (list string) :=
  if (Z.of_nat idx <? Z.of_nat (length tokens) - 1)%Z then
    match bound with
    | 0 => Raise LoopBound
    | S bound' =>
        let! a := getitem tokens idx in
        let! b := getitem tokens (idx + 1) in
        let bigram := a +:+ "_" +:+ b in
        bigram_loop bound' tokens (idx + 1) (features ++ [bigram])
    end
  else Ok features.

Definition _extractFeatures (text : string) : M (list string) :=
  let* tokens := _tokenizeText text in
  let features :=
    fold_left
      (fun features token =>
         if String.eqb token "" then features else features ++ [token])
      tokens [] in
  let* self := get in
  if useBigrams self && (1 <? length tokens)
  then lift (bigram_loop (length tokens) tokens 0 features)
  else ret features.

Definition _resetModel : M unit :=
  let* _ := modify (set_wordCounts (pl_const ∅)) in
  let* _ := modify (set_totalWordCounts (pl_const 0)) in
  let* _ := modify (set_docCounts (pl_const 0)) in
  let* _ := modify (set_totalDocs 0) in
  let* _ := modify (set_vocabSet ∅) in
  let* _ := modify (set_logPriors (pl_const NegInf)) in
  modify (set_vocabSize 1).

(** [d[token] += 1] on a [defaultdict(int)] *)
Definition incr (token : string) (d : gmap string nat) : gmap string nat :=
  <[token := default 0 (d !! token) + 1]> d.

(** The body of [for token in feats] in [train]. *)
Definition count_token (label : Label) (token : string) : M unit :=
  let* _ := modify (fun self =>
    set_wordCounts
      (pl_set (wordCounts self) label
         (incr token (pl_get (wordCounts self) label))) self) in
  let* _ := modify (fun self =>
    set_totalWordCounts
      (pl_set (totalWordCounts self) label
         (pl_get (totalWordCounts self) label + 1)) self) in
  modify (fun self => set_vocabSet ({[token]} ∪ vocabSet self) self).

(** The body of [for rawLine in lines] in [train]; [ret tt] stands for
    [continue]. *)
Definition train_line (rawLine : string) : M unit :=
  if String.eqb rawLine "" then ret tt
  else
    let line := PyStr.strip rawLine in
    if String.eqb line "" then ret tt
    else
      let pieces := PyStr.split_sep "|" 2 line in
      match pieces with
      | [piece0; _; reviewText] =>
          match find_label piece0 with
          | None => ret tt
          | Some label =>
              let* feats := _extractFeatures reviewText in
              let* _ := modify (fun self =>
                set_docCounts
                  (pl_set (docCounts self) label
                     (pl_get (docCounts self) label + 1)) self) in
              let* _ := modify (fun self =>
                set_totalDocs (totalDocs self + 1) self) in
              for_each feats (count_token label)
          end
      | _ => ret tt
      end.

(** The denominator of the priors before its guard. *)
Definition prior_denominator (self : Classifier) : R :=
  (INR (totalDocs self) + INR (length labels) * alphaVal self)%R.

(** The prior of a label before its clamp. *)
Definition prior_chance (self : Classifier) (priorDenom : R) (label : Label)
    : Result R :=
  let numerator := (INR (pl_get (docCounts self) label) + alphaVal self)%R in
  truediv numerator priorDenom.

(** Lines 27 to 52 of [train]: the reset, the loop over the lines and the
    size of the vocabulary. *)
Definition train_counts (lines : list string) : M unit :=
  let* _ := _resetModel in
  let* _ := for_each lines train_line in
  let* self := get in
  if 0 <? size (vocabSet self)
  then modify (set_vocabSize (size (vocabSet self)))
  else ret tt.

(** The body of [for label in self.labels] in [train]. *)
Definition prior_step (priorDenom : R) (label : Label) : M unit :=
  let* self := get in
  let* chance := lift (prior_chance self priorDenom label) in
  let chance := clamp chance in
  let* lg := lift (math_log chance) in
  modify (fun self =>
    set_logPriors (pl_set (logPriors self) label (Fin lg)) self).

(** Lines 54 to 64 of [train]: the priors. *)
Definition train_priors : M unit :=
  let* self := get in
  let priorDenom := prior_denominator self in
  let priorDenom := guard_denominator priorDenom in
  for_each labels (prior_step priorDenom).

Definition train (lines : list string) : M unit :=
  let* _ := train_counts lines in
  train_priors.

(** ** Classification *)

(** The value cached for a label before the loop over the lines. *)
Definition denominator (self : Classifier) (label : Label) : R :=
  (INR (pl_get (totalWordCounts self) label)
   + alphaVal self * INR (vocabSize self))%R.

(** The probability of a token under a label before its clamp. *)
Definition token_value (self : Classifier) (denom : R) (label : Label)
    (token : string) : Result R :=
  let count := default 0 (pl_get (wordCounts self) label !! token) in
  truediv (INR count + alphaVal self)%R denom.

(** The body of [for label in self.labels] that fills [scoreCard]. *)
Definition label_score (self : Classifier) (denominatorCache : LDict R)
    (feats : list string) (label : Label) : Result xreal :=
  if pl_get (docCounts self) label =? 0 then Ok NegInf
  else
    let logScore := pl_get (logPriors self) label in
    let! denom := ld_getitem denominatorCache label in
    let denom := guard_denominator denom in
    foldR
      (fun logScore token =>
         let! value := token_value self denom label token in
         let value := clamp value in
         let! lg := math_log value in
         Ok (xadd logScore (Fin lg)))
      feats logScore.

Definition score_card (self : Classifier) (denominatorCache : LDict R)
    (feats : list string) : Result (LDict xreal) :=
  foldR
    (fun scoreCard label =>
       let! logScore := label_score self denominatorCache feats label in
       Ok (ld_set scoreCard label logScore))
    labels ld_empty.

(** The scan that keeps the best label seen so far. *)
Definition best_label (scoreCard : LDict xreal) : Result Label :=
  let bestLabel := L1 in
  let bestVal := ld_get scoreCard bestLabel NegInf in
  let! best :=
    foldR
      (fun (best : Label * xreal) label =>
         if xgtb (ld_get scoreCard label NegInf) (snd best)
         then
           let! bestVal := ld_getitem scoreCard label in
           Ok (label, bestVal)
         else Ok best)
      labels (bestLabel, bestVal) in
  Ok (fst best).

(** The text a line is classified by. *)
Definition line_text (rawLine : string) : string :=
  let line := PyStr.strip rawLine in
  let parts := PyStr.split_sep "|" 2 line in
  match parts with
  | [_; _; text] => text
  | _ => ""
  end.

(** [denominatorCache] as the loop over the labels fills it. *)
Definition denominator_cache (self : Classifier) : LDict R :=
  fold_left
    (fun cache label => ld_set cache label (denominator self label))
    labels ld_empty.

(** The body of [for rawLine in lines] in [classify]. *)
Definition classify_line (denominatorCache : LDict R)
    (predictions : list string) (rawLine : string) : M (list string) :=
  let text := line_text rawLine in
  let* feats := _extractFeatures text in
  let* self := get in
  let* scoreCard := lift (score_card self denominatorCache feats) in
  let* bestLabel := lift (best_label scoreCard) in
  ret (predictions ++ [label_str bestLabel]).

Definition classify (lines : list string) : M (list string) :=
  let predictions := [] in
  let* self := get in
  let denominatorCache := denominator_cache self in
  let* predictions :=
    foldM (classify_line denominatorCache) lines predictions in
  ret predictions.

(** [Bayes_Classifier(alpha, useBigrams)]: the attributes set by the
    constructor, then [_resetModel]. *)
Definition blank (alpha : R) (bigrams : bool) : Classifier :=
  mkClassifier alpha bigrams _buildStopwords
    (pl_const ∅) (pl_const 0) (pl_const 0) 0 ∅ (pl_const NegInf) 0.

Definition __init__ (alpha : R) (bigrams : bool) : Result Classifier :=
  match _resetModel (blank alpha bigrams) with
  | Ok (_, self) => Ok self
  | Raise e => Raise e
  end.

(** ** Vocabulary of the statements *)

(** What one statement of the tail of the stemmer does to a word: a word of
    the form [p +:+ suffix] that is longer than [bound] becomes [p], any
    other word is kept. *)
Inductive strips (suffix : string) (bound : nat) : string -> string -> Prop :=
  | strips_cut (p : string) :
      bound < PyStr.len (p +:+ suffix) ->
      strips suffix bound (p +:+ suffix) p
  | strips_keep (w : string) :
      (forall p, w <> p +:+ suffix) \/ PyStr.len w <= bound ->
      strips suffix bound w w.

(** The same statement read with the bound on the length that results from
    the removal: the reading of "strip a trailing suffix if the resulting
    length is > bound". *)
Definition strip_if_result_longer (suffix : string) (bound : nat)
    (word : string) : string :=
  if PyStr.endswith word suffix
     && (bound <? PyStr.len word - PyStr.len suffix)
  then PyStr.drop_end (PyStr.len suffix) word
  else word.

Definition strip_tail_on_result (word : string) : string :=
  strip_if_result_longer "e" 3
    (strip_if_result_longer "ly" 4 (strip_if_result_longer "er" 4 word)).

(** The tail of the stemmer with its three bounds read on the resulting
    length, at one word. *)
Definition tail_bounds_on_result (word : string) : Prop :=
  4 <= PyStr.len word ->
  _stemWord word = strip_tail_on_result (strip_first_ending endings word).

(** The tokens of a text, given the stop words. *)
Definition tokenize (stop : gset string) (text : string) : list string :=
  map _stemWord
    (filter (fun tok => tok ∉ stop) (PyStr.split (clean (PyStr.lower text)))).

(** The adjacent pairs of a token list, each joined by an underscore. *)
Fixpoint bigrams (tokens : list string) : list string :=
  match tokens with
  | [] => []
  | a :: rest =>
      match rest with
      | [] => []
      | b :: _ => (a +:+ "_" +:+ b) :: bigrams rest
      end
  end.

(** The features of a token list. *)
Definition features (bigram_mode : bool) (tokens : list string) : list string :=
  tokens ++ (if bigram_mode && (1 <? length tokens) then bigrams tokens else []).

(** Total correctness of a method body: from a state in [P] it returns, and
    the value and the state it returns are in [Q]. *)
Definition hoare {A : Type} (P : Classifier -> Prop) (m : M A)
    (Q : A -> Classifier -> Prop) : Prop :=
  forall self, P self -> exists a self', m self = Ok (a, self') /\ Q a self'.

(** [sum(d.values())] *)
Definition dict_sum (d : gmap string nat) : nat :=
  map_fold (fun _ v acc => v + acc) 0 d.

(** The instance right after [_resetModel]. *)
Definition reset_state (self : Classifier) : Classifier :=
  mkClassifier (alphaVal self) (useBigrams self) (stopWords self)
    (pl_const ∅) (pl_const 0) (pl_const 0) 0 ∅ (pl_const NegInf) 1.

(** The states an instance built with [alpha] and [bigrams] goes through:
    the one the constructor leaves, and those a call of [train] or of
    [classify] leaves. *)
Inductive reachable (alpha : R) (bigrams : bool) : Classifier -> Prop :=
  | reach_init (self : Classifier) :
      __init__ alpha bigrams = Ok self -> reachable alpha bigrams self
  | reach_train (self self' : Classifier) (lines : list string) :
      reachable alpha bigrams self ->
      train lines self = Ok (tt, self') -> reachable alpha bigrams self'
  | reach_classify (self self' : Classifier) (lines preds : list string) :
      reachable alpha bigrams self ->
      classify lines self = Ok (preds, self') -> reachable alpha bigrams self'.

(** What the loop over the lines keeps: the three attributes of the
    constructor, the two sums, and the vocabulary size left by the reset. *)
Record counting (a : R) (b : bool) (sw : gset string) (self : Classifier)
    : Prop := mkCounting {
  cnt_alpha : alphaVal self = a;
  cnt_bigrams : useBigrams self = b;
  cnt_stop : stopWords self = sw;
  cnt_docs :
    totalDocs self = pl_get (docCounts self) L1 + pl_get (docCounts self) L5;
  cnt_words : forall label,
    pl_get (totalWordCounts self) label
    = dict_sum (pl_get (wordCounts self) label);
  cnt_vocab : vocabSize self = 1
}.

(** What [train_counts] establishes. *)
Record counted (a : R) (b : bool) (sw : gset string) (self : Classifier)
    : Prop := mkCounted {
  cntd_alpha : alphaVal self = a;
  cntd_bigrams : useBigrams self = b;
  cntd_stop : stopWords self = sw;
  cntd_docs :
    totalDocs self = pl_get (docCounts self) L1 + pl_get (docCounts self) L5;
  cntd_words : forall label,
    pl_get (totalWordCounts self) label
    = dict_sum (pl_get (wordCounts self) label);
  cntd_vocab : 1 <= vocabSize self
}.

(** The log-prior [train] stores for a label, from the state the counting
    leaves. *)
Definition stored_prior (self : Classifier) (label : Label) : R :=
  ln (clamp ((INR (pl_get (docCounts self) label) + alphaVal self)
             / guard_denominator (prior_denominator self))).

(** The logarithm [classify] adds to the score of a label for one token. *)
Definition token_log (self : Classifier) (label : Label) (token : string) : R :=
  ln (clamp
        ((INR (default 0 (pl_get (wordCounts self) label !! token))
          + alphaVal self)
         / guard_denominator (denominator self label))).

(** The score of a label for a list of features: negative infinity for a
    label without documents, and otherwise the log-prior plus the logarithm
    of every feature. *)
Definition log_score (self : Classifier) (feats : list string) (label : Label)
    : xreal :=
  if pl_get (docCounts self) label =? 0 then NegInf
  else
    fold_left (fun logScore token => xadd logScore (Fin (token_log self label token)))
      feats (pl_get (logPriors self) label).

(** The features [classify] extracts from a line. *)
Definition line_features (self : Classifier) (rawLine : string) : list string :=
  features (useBigrams self) (tokenize (stopWords self) (line_text rawLine)).

(** The order of the scores. *)
Definition xlt (x y : xreal) : Prop :=
  match x, y with
  | _, NegInf => False
  | NegInf, Fin _ => True
  | Fin a, Fin b => (a < b)%R
  end.

Definition xle (x y : xreal) : Prop := xlt x y \/ x = y.

(** [a] comes before [b] in [self.labels]. *)
Definition before (a b : Label) : Prop := a = L1 /\ b = L5.

(** [best] has the greatest score, and a score strictly above that of every
    label before it: it is the first label of the scan with the greatest
    score. *)
Definition first_greatest (score : Label -> xreal) (best : Label) : Prop :=
  (forall label, xle (score label) (score best))
  /\ (forall label, before label best -> xlt (score label) (score best)).

(** The label [classify] predicts for a line. *)
Definition predicted_label (self : Classifier) (rawLine : string) : Label :=
  let feats := line_features self rawLine in
  if xgtb (log_score self feats L5) (log_score self feats L1) then L5 else L1.

(** ** The guarded quotients on binary64 numbers *)

(** Lines 55 to 62 of [train] and lines 71 and 89 to 95 of [classify] on the
    numbers Python computes with: [alphaVal] is the binary64 number the
    constructor received, the counters are those of the instance, and a
    counter is converted as Python converts an [int] that meets a [float]. *)
Module Binary64.

(** [float(n)] for a counter [n] below 2^63. *)
Definition of_count (n : nat) : float :=
  PrimFloat.of_uint63 (Uint63.of_Z (Z.of_nat n)).

(** [priorDenom = self.totalDocs + totalLabels * self.alphaVal] *)
Definition prior_denominator (alphaVal : float) (self : Classifier) : float :=
  (of_count (totalDocs self) + of_count (length labels) * alphaVal)%float.

(** [if denom == 0: denom = 1] *)
Definition guard_denominator (denom : float) : float :=
  if PrimFloat.eqb denom 0%float then 1%float else denom.

(** [chance = numerator / priorDenom], after the guard of [priorDenom]. *)
Definition prior_chance (alphaVal : float) (self : Classifier) (label : Label)
    : float :=
  let priorDenom := guard_denominator (prior_denominator alphaVal self) in
  let numerator := (of_count (pl_get (docCounts self) label) + alphaVal)%float in
  (numerator / priorDenom)%float.


(** [self.totalWordCounts[label] + self.alphaVal * self.vocabSize] *)
Definition denominator (alphaVal : float) (self : Classifier) (label : Label)
    : float :=
  (of_count (pl_get (totalWordCounts self) label)
   + alphaVal * of_count (vocabSize self))%float.

(** [value = (count + self.alphaVal) / denom], after the guard of [denom]. *)
Definition token_value (alphaVal : float) (self : Classifier) (label : Label)
    (token : string) : float :=
  let denom := guard_denominator (denominator alphaVal self label) in
  let count := default 0 (pl_get (wordCounts self) label !! token) in
  ((of_count count + alphaVal) / denom)%float.


End Binary64.

(** ** Vocabulary of the further properties *)

(** [p] is what is left of [w] when characters are removed from its end. *)
Definition is_prefix (p w : string) : Prop := exists s, w = p +:+ s.

(** The word ends with the ending and at least three characters remain
    before it: the test of the loop over the endings. *)
Definition qualifies (word ending : string) : Prop :=
  exists p, word = p +:+ ending /\ 3 <= PyStr.len p.

(** Every character of a string passes a test. *)
Fixpoint all_chars (test : ascii -> bool) (s : string) : bool :=
  match s with
  | EmptyString => true
  | String c s' => test c && all_chars test s'
  end.

(** A lower-case letter, a digit or an apostrophe. *)
Definition word_char (c : ascii) : bool :=
  let n := PyStr.ord c in
  ((97 <=? n) && (n <=? 122)) || ((48 <=? n) && (n <=? 57)) || (n =? 39).

(** The label of a line [train] accepts: the line, stripped, splits into
    three fields and the first is a label. *)
Definition record_label (rawLine : string) : option Label :=
  match PyStr.split_sep "|" 2 (PyStr.strip rawLine) with
  | [piece0; _; _] => find_label piece0
  | _ => None
  end.

(** The state after the three statements of [for token in feats]. *)
Definition add_token (label : Label) (token : string) (self : Classifier)
    : Classifier :=
  mkClassifier (alphaVal self) (useBigrams self) (stopWords self)
    (pl_set (wordCounts self) label
       (incr token (pl_get (wordCounts self) label)))
    (pl_set (totalWordCounts self) label
       (pl_get (totalWordCounts self) label + 1))
    (docCounts self) (totalDocs self)
    ({[token]} ∪ vocabSet self) (logPriors self) (vocabSize self).

(** The state after the two statements that count a document. *)
Definition add_document (label : Label) (self : Classifier) : Classifier :=
  mkClassifier (alphaVal self) (useBigrams self) (stopWords self)
    (wordCounts self) (totalWordCounts self)
    (pl_set (docCounts self) label (pl_get (docCounts self) label + 1))
    (totalDocs self + 1)
    (vocabSet self) (logPriors self) (vocabSize self).

(** The state after the loop [for token in feats]. *)
Definition add_tokens (label : Label) (feats : list string)
    (self : Classifier) : Classifier :=
  fold_left (fun s token => add_token label token s) feats self.

(** The state after a round of the loop over the lines that counts a
    document of a label with its features. *)
Definition add_record (label : Label) (feats : list string)
    (self : Classifier) : Classifier :=
  add_tokens label feats (add_document label self).

(** The state after one round of the loop over the lines of [train]. *)
Definition learn_line (rawLine : string) (self : Classifier) : Classifier :=
  match record_label rawLine with
  | Some label => add_record label (line_features self rawLine) self
  | None => self
  end.

(** Two updates of the state that can be done in either order. *)
Definition commute (f g : Classifier -> Classifier) : Prop :=
  forall self, f (g self) = g (f self).

(** What the counting keeps about the vocabulary: it is the set of the
    features counted for either label, and no counter is zero. *)
Definition vocabulary_ok (self : Classifier) : Prop :=
  vocabSet self
  = dom (pl_get (wordCounts self) L1) ∪ dom (pl_get (wordCounts self) L5)
  /\ forall (label : Label) (token : string) (n : nat),
       pl_get (wordCounts self) label !! token = Some n -> 1 <= n.

(** The state after the loop over the lines. *)
Definition learn (lines : list string) (self : Classifier) : Classifier :=
  fold_left (fun s rawLine => learn_line rawLine s) lines self.

(** The state after line 52: the vocabulary size is set when the vocabulary
    is not empty. *)
Definition size_vocabulary (self : Classifier) : Classifier :=
  if 0 <? size (vocabSet self)
  then set_vocabSize (size (vocabSet self)) self
  else self.

(** The state [train] leaves. *)
Definition trained (lines : list string) (self : Classifier) : Classifier :=
  let counted_state := size_vocabulary (learn lines (reset_state self)) in
  set_logPriors
    (mkPerLabel (Fin (stored_prior counted_state L1))
       (Fin (stored_prior counted_state L5)))
    counted_state.

#[global] Instance Label_eq_dec : EqDecision Label.
Proof. solve_decision. Defined.

(** The lines of a list that [train] counts for a label. *)
Definition records_of (label : Label) (lines : list string) : list string :=
  filter (fun rawLine => record_label rawLine = Some label) lines.

(** A line with three fields: [label_field + "|" + middle + "|" + text]. *)
Definition record_line (label_field middle text : string) : string :=
  label_field +:+ "|" +:+ middle +:+ "|" +:+ text.

(** The sum of a list of real numbers. *)
Definition real_sum (values : list R) : R := fold_right Rplus 0%R values.

(** * Properties *)

Example stem_running : _stemWord "running" = "runn".
Proof. reflexivity. Qed.

Example stem_nicely : _stemWord "nicely" = "nic".
Proof. reflexivity. Qed.

Example stem_poker : _stemWord "poker" = "pok".
Proof. reflexivity. Qed.

Example stem_short : _stemWord "was" = "was".
Proof. reflexivity. Qed.

Example split_three : PyStr.split_sep "|" 2 "5|x|good|fun" = ["5"; "x"; "good|fun"].
Proof. reflexivity. Qed.

Example split_two : PyStr.split_sep "|" 2 "5|good" = ["5"; "good"].
Proof. reflexivity. Qed.

Example strip_both : PyStr.strip "  1||bad  " = "1||bad".
Proof. reflexivity. Qed.

Example stopwords_size : size _buildStopwords = 175.
Proof. vm_compute. reflexivity. Qed.

Example tokenize_scenario :
  tokenize _buildStopwords "This movie was terrible and boring"
  = ["movi"; "terribl"; "bor"].
Proof. vm_compute. reflexivity. Qed.

Example features_scenario :
  features true (tokenize _buildStopwords "This movie was terrible and boring")
  = ["movi"; "terribl"; "bor"; "movi_terribl"; "terribl_bor"].
Proof. vm_compute. reflexivity. Qed.

Example line_text_malformed_line : line_text "great film" = "".
Proof. reflexivity. Qed.

(** ** Facts about the string primitives *)

Module PyStrFacts.
Import PyStr.

Lemma str_app_cons (c : ascii) (p q : string) :
  String c p +:+ q = String c (p +:+ q).
Proof. reflexivity. Qed.

Lemma len_cons (c : ascii) (p : string) : len (String c p) = S (len p).
Proof. reflexivity. Qed.

Lemma len_app (p q : string) : len (p +:+ q) = len p + len q.
Proof.
  induction p as [|c p IH]; [reflexivity |].
  now rewrite str_app_cons, !len_cons, IH.
Qed.

Lemma substring_whole (s : string) : String.substring 0 (len s) s = s.
Proof. unfold len. induction s as [|c s IH]; simpl; [reflexivity | now rewrite IH]. Qed.

Lemma substring_prefix (p q : string) : String.substring 0 (len p) (p +:+ q) = p.
Proof.
  induction p as [|c p IH].
  - now destruct q.
  - rewrite str_app_cons, len_cons. cbn [String.substring]. now rewrite IH.
Qed.

Lemma substring_suffix (p q : string) :
  String.substring (len p) (len q) (p +:+ q) = q.
Proof.
  induction p as [|c p IH].
  - apply substring_whole.
  - rewrite str_app_cons, len_cons. exact IH.
Qed.

Lemma substring_cut (n : nat) (s : string) :
  n <= len s ->
  s = String.substring 0 n s +:+ String.substring n (len s - n) s.
Proof.
  revert s. induction n as [|n IH]; intros s Hn.
  - rewrite Nat.sub_0_r, substring_whole. now destruct s.
  - destruct s as [|c s]; [simpl in Hn; lia |].
    rewrite len_cons in *. cbn [String.substring Nat.sub]. rewrite str_app_cons.
    f_equal. apply IH. lia.
Qed.

Lemma len_drop_end (n : nat) (s : string) : len (drop_end n s) = len s - n.
Proof.
  unfold drop_end.
  assert (H : forall m t, m <= len t -> len (String.substring 0 m t) = m).
  { induction m as [|m IH]; intros [|c t] Hm; try reflexivity.
    - simpl in Hm. lia.
    - rewrite len_cons in Hm. cbn [String.substring]. rewrite len_cons.
      f_equal. apply IH. lia. }
  apply H. lia.
Qed.

Lemma drop_end_app (p q : string) : drop_end (len q) (p +:+ q) = p.
Proof.
  unfold drop_end. rewrite len_app.
  replace (len p + len q - len q) with (len p) by lia.
  apply substring_prefix.
Qed.

Lemma endswith_app (p q : string) : endswith (p +:+ q) q = true.
Proof.
  unfold endswith. rewrite len_app.
  replace (len p + len q - len q) with (len p) by lia.
  rewrite substring_suffix, String.eqb_refl.
  rewrite andb_true_r. apply Nat.leb_le. lia.
Qed.

Lemma endswith_inv (s q : string) :
  endswith s q = true -> s = drop_end (len q) s +:+ q.
Proof.
  unfold endswith, drop_end. intros H.
  apply andb_true_iff in H as [Hle Heq].
  apply Nat.leb_le in Hle. apply String.eqb_eq in Heq.
  rewrite (substring_cut (len s - len q) s) at 1 by lia.
  replace (len s - (len s - len q)) with (len q) by lia.
  now rewrite Heq.
Qed.

End PyStrFacts.

(** ** The stemmer *)

Section Stemmer.
Import PyStr PyStrFacts.

Lemma strip_first_ending_len (es : list string) (word : string) :
  3 <= len word -> 3 <= len (strip_first_ending es word).
Proof.
  intros Hw. induction es as [|ending rest IH]; cbn [strip_first_ending]; [exact Hw |].
  destruct (endswith word ending && (3 <=? len word - len ending)) eqn:E.
  - apply andb_true_iff in E as [_ E]. apply Nat.leb_le in E.
    now rewrite len_drop_end.
  - exact IH.
Qed.

Lemma strip_if_longer_len (suffix : string) (bound : nat) (word : string) :
  2 + len suffix <= bound ->
  3 <= len word -> 3 <= len (strip_if_longer suffix bound word).
Proof.
  intros Hb Hw. unfold strip_if_longer.
  destruct (endswith word suffix && (bound <? len word)) eqn:E; [| exact Hw].
  apply andb_true_iff in E as [_ E]. apply Nat.ltb_lt in E.
  rewrite len_drop_end. lia.
Qed.

Lemma strip_tail_len (word : string) :
  3 <= len word -> 3 <= len (strip_tail word).
Proof.
  intros Hw. unfold strip_tail.
  apply strip_if_longer_len; [vm_compute; lia |].
  apply strip_if_longer_len; [vm_compute; lia |].
  apply strip_if_longer_len; [vm_compute; lia | exact Hw].
Qed.

Lemma strip_if_longer_strips (suffix : string) (bound : nat) (word : string) :
  strips suffix bound word (strip_if_longer suffix bound word).
Proof.
  unfold strip_if_longer.
  destruct (endswith word suffix) eqn:Es; cbn [andb].
  - destruct (bound <? len word) eqn:Eb.
    + apply Nat.ltb_lt in Eb. apply endswith_inv in Es.
      set (p := drop_end (len suffix) word) in *.
      rewrite Es at 1. apply strips_cut. now rewrite <- Es.
    + apply Nat.ltb_ge in Eb. apply strips_keep. now right.
  - apply strips_keep. left. intros p ->.
    rewrite endswith_app in Es. discriminate.
Qed.

(** Beyond three characters the stemmer is the loop over the endings
    followed by the three tail statements: the fallback to the saved word
    is never taken. *)
Lemma stemWord_long (word : string) :
  3 < len word ->
  _stemWord word = strip_tail (strip_first_ending endings word).
Proof.
  intros Hw. unfold _stemWord.
  destruct (len word <=? 3) eqn:E; [apply Nat.leb_le in E; lia |].
  cbv zeta.
  assert (Hl : 3 <= len (strip_tail (strip_first_ending endings word))).
  { apply strip_tail_len, strip_first_ending_len. lia. }
  destruct (String.eqb_spec (strip_tail (strip_first_ending endings word)) "")
    as [Heq | Hne]; [| reflexivity].
  rewrite Heq in Hl. vm_compute in Hl. lia.
Qed.

Lemma stemWord_nonempty (word : string) : word <> "" -> _stemWord word <> "".
Proof.
  intros Hne. unfold _stemWord.
  destruct (len word <=? 3); [exact Hne |]. cbv zeta.
  destruct (String.eqb_spec (strip_tail (strip_first_ending endings word)) "");
    assumption.
Qed.

End Stemmer.

(** C1, as amended: for a word of at least four characters, after the loop
    over the endings the stemmer runs three statements in order, each on the
    outcome of the one before. A word ending in "er" loses it when the word
    itself, before the removal, is longer than 4; then one ending in "ly"
    loses it when longer than 4; then one ending in "e" loses it when longer
    than 3. The outcome of the third is the stem. *)
Theorem C1_tail_statements (word : string) :
  4 <= PyStr.len word ->
  exists w1 w2 w3 : string,
    strips "er" 4 (strip_first_ending endings word) w1
    /\ strips "ly" 4 w1 w2
    /\ strips "e" 3 w2 w3
    /\ _stemWord word = w3.
Proof.
  intros Hw.
  exists (strip_if_longer "er" 4 (strip_first_ending endings word)).
  exists (strip_if_longer "ly" 4
            (strip_if_longer "er" 4 (strip_first_ending endings word))).
  exists (strip_tail (strip_first_ending endings word)).
  repeat split; try apply strip_if_longer_strips.
  apply stemWord_long. lia.
Qed.

(** C1 at "pioneer": "er" is removed from the seven characters, then "e"
    from the five that are left. *)
Lemma C1_tail_statements_witness :
  4 <= PyStr.len "pioneer"
  /\ exists w1 w2 w3 : string,
       strips "er" 4 (strip_first_ending endings "pioneer") w1
       /\ strips "ly" 4 w1 w2
       /\ strips "e" 3 w2 w3
       /\ _stemWord "pioneer" = w3.
Proof.
  assert (H : 4 <= PyStr.len "pioneer") by (vm_compute; lia).
  split; [exact H | exact (C1_tail_statements "pioneer" H)].
Defined.

(** C1 as worded fails at "poker": the word ends in "er" and has five
    characters, so the source removes the ending and returns "pok", while a
    bound on the resulting length (three characters, not above 4) leaves the
    word as it is. *)
Lemma C1_poker_counterexample : ~ tail_bounds_on_result "poker".
Proof.
  unfold tail_bounds_on_result. intros H.
  assert (Hlen : 4 <= PyStr.len "poker") by (vm_compute; lia).
  specialize (H Hlen). vm_compute in H. discriminate H.
Qed.

(** C8: the stem of a non-empty word is non-empty; beyond three characters
    it is the stripped word when that is non-empty and the input word when
    the stripping leaves nothing, and up to three characters it is the
    input word. The stemmer is a total function: it raises nothing. *)
Theorem C8_stem_nonempty (word : string) :
  word <> "" ->
  _stemWord word <> ""
  /\ (forall stripped : string,
        stripped = strip_tail (strip_first_ending endings word) ->
        3 < PyStr.len word ->
        (stripped = "" -> _stemWord word = word)
        /\ (stripped <> "" -> _stemWord word = stripped))
  /\ (PyStr.len word <= 3 -> _stemWord word = word).
Proof.
  intros Hne. split; [now apply stemWord_nonempty |]. split.
  - intros stripped -> Hlen. unfold _stemWord.
    destruct (PyStr.len word <=? 3) eqn:E; [apply Nat.leb_le in E; lia |].
    cbv zeta.
    destruct (String.eqb_spec (strip_tail (strip_first_ending endings word)) "")
      as [Heq | Hneq]; split; intros H; congruence.
  - intros Hlen. unfold _stemWord.
    apply Nat.leb_le in Hlen. now rewrite Hlen.
Qed.

(** C8 at "nicely". *)
Lemma C8_stem_nonempty_witness :
  "nicely" <> ""
  /\ _stemWord "nicely" <> ""
  /\ (forall stripped : string,
        stripped = strip_tail (strip_first_ending endings "nicely") ->
        3 < PyStr.len "nicely" ->
        (stripped = "" -> _stemWord "nicely" = "nicely")
        /\ (stripped <> "" -> _stemWord "nicely" = stripped))
  /\ (PyStr.len "nicely" <= 3 -> _stemWord "nicely" = "nicely").
Proof.
  assert (H : "nicely" <> "") by discriminate.
  split; [exact H | exact (C8_stem_nonempty "nicely" H)].
Defined.

(** ** The monad of the methods *)

Section Monad.

Lemma bind_run {A B : Type} (m : M A) (k : A -> M B) self a self' :
  m self = Ok (a, self') -> bind m k self = k a self'.
Proof. intros H. unfold bind. now rewrite H. Qed.

Lemma hoare_bind {A B : Type} (P : Classifier -> Prop) (m : M A)
    (Q : A -> Classifier -> Prop) (k : A -> M B) (R : B -> Classifier -> Prop) :
  hoare P m Q -> (forall a, hoare (Q a) (k a) R) -> hoare P (bind m k) R.
Proof.
  intros Hm Hk self HP.
  destruct (Hm self HP) as (a & self1 & E1 & HQ).
  destruct (Hk a self1 HQ) as (b & self2 & E2 & HR).
  exists b, self2. split; [| exact HR].
  now rewrite (bind_run _ _ _ _ _ E1).
Qed.

(** A loop over a list keeps an invariant its body keeps. *)
Lemma hoare_for_each {A : Type} (I : Classifier -> Prop) (l : list A)
    (body : A -> M unit) :
  (forall x, x ∈ l -> hoare I (body x) (fun _ => I)) ->
  hoare I (for_each l body) (fun _ => I).
Proof.
  induction l as [|x l IH]; intros Hbody.
  - intros self HI. now exists tt, self.
  - cbn [for_each]. eapply hoare_bind.
    + apply Hbody. left.
    + intros u. apply IH. intros y Hy. apply Hbody. now right.
Qed.

(** A loop whose body only reads [self] and computes [g]. *)
Lemma foldM_read {A B : Type} (body : B -> A -> M B) (g : B -> A -> B)
    (self : Classifier) (l : list A) :
  (forall b x, body b x self = Ok (g b x, self)) ->
  forall b, foldM body l b self = Ok (fold_left g l b, self).
Proof.
  intros Hbody. induction l as [|x l IH]; intros b; [reflexivity |].
  cbn [foldM fold_left]. rewrite (bind_run _ _ _ _ _ (Hbody b x)). apply IH.
Qed.

End Monad.

(** ** Tokens and features *)

Section Features.
Import PyStr PyStrFacts.

Lemma split_go_nonempty (cur s : string) :
  Forall (fun tok => tok <> "") (split_go cur s).
Proof.
  revert cur. induction s as [|c s IH]; intros cur; cbn [split_go].
  - destruct (String.eqb_spec cur ""); [constructor |].
    now repeat constructor.
  - destruct (isspace c); [| apply IH].
    destruct (String.eqb_spec cur ""); [apply IH |].
    constructor; [assumption | apply IH].
Qed.

Lemma tokenize_nonempty (stop : gset string) (text : string) :
  Forall (fun tok => tok <> "") (tokenize stop text).
Proof.
  unfold tokenize, split.
  pose proof (split_go_nonempty "" (clean (lower text))) as H.
  induction H as [|tok toks Htok _ IH]; [constructor |].
  rewrite filter_cons. destruct (decide (tok ∉ stop)); [| exact IH].
  cbn [map]. constructor; [now apply stemWord_nonempty | exact IH].
Qed.

Lemma fold_filter_stem (stop : gset string) (toks acc : list string) :
  fold_left
    (fun filtered tok =>
       if decide (tok ∈ stop) then filtered else filtered ++ [_stemWord tok])
    toks acc
  = acc ++ map _stemWord (filter (fun tok => tok ∉ stop) toks).
Proof.
  revert acc. induction toks as [|tok toks IH]; intros acc; cbn [fold_left].
  - now rewrite app_nil_r.
  - rewrite IH, filter_cons.
    destruct (decide (tok ∈ stop)); destruct (decide (tok ∉ stop));
      try contradiction; [reflexivity |].
    cbn [map]. now rewrite <- app_assoc.
Qed.

Lemma tokenizeText_run (text : string) (self : Classifier) :
  _tokenizeText text self = Ok (tokenize (stopWords self) text, self).
Proof.
  unfold _tokenizeText.
  rewrite (foldM_read _
    (fun filtered tok =>
       if decide (tok ∈ stopWords self) then filtered
       else filtered ++ [_stemWord tok])).
  - now rewrite fold_filter_stem.
  - intros b x. unfold bind, get. now destruct (decide (x ∈ stopWords self)).
Qed.

Lemma fold_keep_nonempty (tokens acc : list string) :
  Forall (fun tok => tok <> "") tokens ->
  fold_left
    (fun features token =>
       if String.eqb token "" then features else features ++ [token])
    tokens acc
  = acc ++ tokens.
Proof.
  intros H. revert acc. induction H as [|tok toks Htok _ IH]; intros acc;
    cbn [fold_left].
  - now rewrite app_nil_r.
  - destruct (String.eqb_spec tok ""); [contradiction |].
    now rewrite IH, <- app_assoc.
Qed.

Lemma bigrams_length (tokens : list string) :
  length (bigrams tokens) = length tokens - 1.
Proof.
  induction tokens as [|a [|b rest] IH]; [reflexivity | reflexivity |].
  change (bigrams (a :: b :: rest)) with ((a +:+ "_" +:+ b) :: bigrams (b :: rest)).
  cbn [length] in *. lia.
Qed.

Lemma bigrams_lookup (tokens : list string) (i : nat) (a b : string) :
  tokens !! i = Some a -> tokens !! (i + 1) = Some b ->
  bigrams tokens !! i = Some (a +:+ "_" +:+ b).
Proof.
  revert i. induction tokens as [|x [|y rest] IH]; intros i Ha Hb.
  - discriminate.
  - destruct i; discriminate.
  - change (bigrams (x :: y :: rest))
      with ((x +:+ "_" +:+ y) :: bigrams (y :: rest)).
    destruct i as [|i].
    + cbn in Ha, Hb. now inversion Ha; inversion Hb.
    + cbn [lookup list_lookup] in *. now apply IH.
Qed.

Lemma bigram_loop_run (bound : nat) (tokens : list string) (idx : nat)
    (feats : list string) :
  length tokens - 1 - idx <= bound ->
  bigram_loop bound tokens idx feats = Ok (feats ++ bigrams (drop idx tokens)).
Proof.
  revert idx feats. induction bound as [|bound IH]; intros idx feats Hb.
  - cbn [bigram_loop].
    destruct (Z.ltb_spec (Z.of_nat idx) (Z.of_nat (length tokens) - 1)); [lia |].
    assert (Hd : length (drop idx tokens) <= 1) by (rewrite length_drop; lia).
    destruct (drop idx tokens) as [|a [|b rest]]; cbn [length] in Hd;
      [| | lia]; now rewrite app_nil_r.
  - cbn [bigram_loop].
    destruct (Z.ltb_spec (Z.of_nat idx) (Z.of_nat (length tokens) - 1)) as [Hlt | Hge].
    + destruct (lookup_lt_is_Some_2 tokens idx) as [a Ha]; [lia |].
      destruct (lookup_lt_is_Some_2 tokens (idx + 1)) as [b Hb']; [lia |].
      unfold getitem. rewrite Ha, Hb'. cbn [bindR].
      rewrite IH by lia.
      rewrite (drop_S _ _ _ Ha). replace (S idx) with (idx + 1) by lia.
      rewrite (drop_S _ _ _ Hb').
      change (bigrams (a :: b :: drop (S (idx + 1)) tokens))
        with ((a +:+ "_" +:+ b) :: bigrams (b :: drop (S (idx + 1)) tokens)).
      now rewrite <- app_assoc.
    + assert (Hd : length (drop idx tokens) <= 1) by (rewrite length_drop; lia).
      destruct (drop idx tokens) as [|a [|b rest]]; cbn [length] in Hd;
        [| | lia]; now rewrite app_nil_r.
Qed.

Lemma extractFeatures_run (text : string) (self : Classifier) :
  _extractFeatures text self
  = Ok (features (useBigrams self) (tokenize (stopWords self) text), self).
Proof.
  unfold _extractFeatures.
  rewrite (bind_run _ _ _ _ _ (tokenizeText_run text self)).
  rewrite fold_keep_nonempty by apply tokenize_nonempty.
  unfold bind at 1, get. unfold features. cbn [app].
  destruct (useBigrams self && (1 <? length (tokenize (stopWords self) text))).
  - unfold lift. rewrite bigram_loop_run by lia. now rewrite drop_0.
  - unfold ret. now rewrite app_nil_r.
Qed.

End Features.

(** C7: the features of a text are its tokens, all of them, in order and
    with their repetitions, followed by the bigrams. In bigram mode and with
    more than one token there are one fewer bigrams than tokens, the i-th
    being token i, an underscore and token i+1; with at most one token, or
    outside bigram mode, there is no bigram. Neither method changes the
    instance. *)
Theorem C7_features (self : Classifier) (text : string) :
  exists tokens grams : list string,
    _tokenizeText text self = Ok (tokens, self)
    /\ _extractFeatures text self = Ok (tokens ++ grams, self)
    /\ (useBigrams self = true -> 1 < length tokens ->
        length grams = length tokens - 1
        /\ forall (i : nat) (a b : string),
             tokens !! i = Some a -> tokens !! (i + 1) = Some b ->
             grams !! i = Some (a +:+ "_" +:+ b))
    /\ (length tokens <= 1 \/ useBigrams self = false -> grams = []).
Proof.
  set (tokens := tokenize (stopWords self) text).
  exists tokens.
  exists (if useBigrams self && (1 <? length tokens) then bigrams tokens else []).
  split; [apply tokenizeText_run |].
  split; [apply extractFeatures_run |].
  split.
  - intros Hb Hn. rewrite Hb. apply Nat.ltb_lt in Hn. rewrite Hn. cbn [andb].
    split; [apply bigrams_length | apply bigrams_lookup].
  - intros [Hn | Hb].
    + apply Nat.ltb_ge in Hn. rewrite Hn. now rewrite andb_false_r.
    + now rewrite Hb.
Qed.

(** ** Numbers *)

Section Numbers.
Local Open Scope R_scope.

Lemma floor_value_pos : 0 < floor_value.
Proof.
  unfold floor_value. apply Rdiv_lt_0_compat; [lra |].
  apply (IZR_lt 0). reflexivity.
Qed.

Lemma guard_denominator_nonzero (denom : R) : guard_denominator denom <> 0.
Proof.
  unfold guard_denominator. destruct (Req_dec_T denom 0); [lra | assumption].
Qed.

Lemma guard_denominator_id (denom : R) :
  denom <> 0 -> guard_denominator denom = denom.
Proof. unfold guard_denominator. now destruct (Req_dec_T denom 0). Qed.

Lemma clamp_pos (value : R) : 0 < clamp value.
Proof.
  unfold clamp. destruct (Rle_dec value 0); [apply floor_value_pos | lra].
Qed.

Lemma clamp_id (value : R) : 0 < value -> clamp value = value.
Proof. unfold clamp. destruct (Rle_dec value 0); [lra | reflexivity]. Qed.

Lemma truediv_run (x y : R) : y <> 0 -> truediv x y = Ok (x / y).
Proof. unfold truediv. now destruct (Req_dec_T y 0). Qed.

Lemma math_log_run (x : R) : 0 < x -> math_log x = Ok (ln x).
Proof. unfold math_log. now destruct (Rlt_dec 0 x). Qed.

Lemma div_pos (x y : R) : 0 < x -> 0 < y -> 0 < x / y.
Proof. intros Hx Hy. apply Rdiv_lt_0_compat; assumption. Qed.

End Numbers.

(** ** Training *)

Section Training.

Lemma bind_assoc_run {A B C : Type} (m : M A) (k1 : A -> M B) (k2 : B -> M C)
    (self : Classifier) :
  bind (bind m k1) k2 self = bind m (fun a => bind (k1 a) k2) self.
Proof. unfold bind. destruct (m self) as [[a self1] | e]; reflexivity. Qed.

Lemma resetModel_run (self : Classifier) :
  _resetModel self = Ok (tt, reset_state self).
Proof. reflexivity. Qed.

Lemma reset_state_config (self other : Classifier) :
  alphaVal other = alphaVal self -> useBigrams other = useBigrams self ->
  stopWords other = stopWords self -> reset_state other = reset_state self.
Proof. unfold reset_state. now intros -> -> ->. Qed.

Lemma dict_sum_empty : dict_sum ∅ = 0.
Proof. apply map_fold_empty. Qed.

Lemma dict_sum_insert (token : string) (v : nat) (d : gmap string nat) :
  d !! token = None -> dict_sum (<[token := v]> d) = v + dict_sum d.
Proof.
  intros Hd. unfold dict_sum.
  rewrite map_fold_insert_L; [reflexivity | | exact Hd].
  intros; lia.
Qed.

Lemma dict_sum_incr (token : string) (d : gmap string nat) :
  dict_sum (incr token d) = dict_sum d + 1.
Proof.
  unfold incr. destruct (d !! token) as [v |] eqn:E; cbn [default]; unfold Datatypes.id.
  - rewrite <- insert_delete_eq.
    rewrite dict_sum_insert by apply lookup_delete_eq.
    pose proof (dict_sum_insert token v (delete token d)
                  (lookup_delete_eq _ _)) as H.
    rewrite (insert_delete_id _ _ _ E) in H. lia.
  - rewrite dict_sum_insert by exact E. lia.
Qed.

Lemma counting_reset (self : Classifier) :
  counting (alphaVal self) (useBigrams self) (stopWords self) (reset_state self).
Proof.
  split; try reflexivity.
  intros []; cbn; now rewrite dict_sum_empty.
Qed.

Lemma count_token_counting a b sw (label : Label) (token : string) :
  hoare (counting a b sw) (count_token label token) (fun _ => counting a b sw).
Proof.
  intros self [Ha Hb Hs Hd Hw Hv].
  eexists tt, _. split; [reflexivity |].
  split; cbn; try assumption.
  intros l. specialize (Hw l).
  destruct label, l; cbn in *; rewrite ?dict_sum_incr; lia.
Qed.

Lemma train_line_counting a b sw (rawLine : string) :
  hoare (counting a b sw) (train_line rawLine) (fun _ => counting a b sw).
Proof.
  intros self Hc. unfold train_line.
  destruct (String.eqb rawLine ""); [now exists tt, self |].
  destruct (String.eqb (PyStr.strip rawLine) ""); [now exists tt, self |].
  destruct (PyStr.split_sep "|" 2 (PyStr.strip rawLine))
    as [|piece0 [|piece1 [|reviewText [|? ?]]]]; try (now exists tt, self).
  destruct (find_label piece0) as [label |]; [| now exists tt, self].
  rewrite (bind_run _ _ _ _ _ (extractFeatures_run reviewText self)).
  unfold bind at 1, modify at 1. unfold bind at 1, modify at 1.
  apply hoare_for_each; [intros; apply count_token_counting |].
  destruct Hc as [Ha Hb Hs Hd Hw Hv].
  split; cbn; try assumption.
  destruct label; cbn in *; lia.
Qed.

Lemma train_counts_counted (lines : list string) (self : Classifier) :
  exists self1,
    train_counts lines self = Ok (tt, self1)
    /\ counted (alphaVal self) (useBigrams self) (stopWords self) self1.
Proof.
  unfold train_counts.
  rewrite (bind_run _ _ _ _ _ (resetModel_run self)).
  destruct (hoare_for_each
              (counting (alphaVal self) (useBigrams self) (stopWords self))
              lines train_line
              (fun x _ => train_line_counting _ _ _ x)
              (reset_state self) (counting_reset self))
    as ([] & self1 & E & [Ha Hb Hs Hd Hw Hv]).
  rewrite (bind_run _ _ _ _ _ E). unfold bind, get.
  destruct (0 <? size (vocabSet self1)) eqn:Es.
  - eexists. split; [reflexivity |].
    apply Nat.ltb_lt in Es. split; cbn; try assumption; lia.
  - eexists. split; [reflexivity |]. split; try assumption. lia.
Qed.

Lemma prior_step_run (priorDenom : R) (label : Label) (self : Classifier) :
  priorDenom <> 0%R ->
  prior_step priorDenom label self
  = Ok (tt,
        set_logPriors
          (pl_set (logPriors self) label
             (Fin (ln (clamp ((INR (pl_get (docCounts self) label)
                               + alphaVal self) / priorDenom)))))
          self).
Proof.
  intros Hd. unfold prior_step, prior_chance.
  unfold bind at 1, get. rewrite truediv_run by exact Hd.
  unfold bind at 1, lift at 1.
  rewrite math_log_run by apply clamp_pos.
  reflexivity.
Qed.

Lemma train_priors_run (self : Classifier) :
  train_priors self
  = Ok (tt,
        set_logPriors
          (mkPerLabel (Fin (stored_prior self L1)) (Fin (stored_prior self L5)))
          self).
Proof.
  unfold train_priors, labels. unfold bind at 1, get.
  cbn [for_each].
  pose proof (guard_denominator_nonzero (prior_denominator self)) as Hd.
  rewrite (bind_run _ _ _ _ _ (prior_step_run _ L1 self Hd)).
  rewrite (bind_run _ _ _ _ _ (prior_step_run _ L5 _ Hd)).
  reflexivity.
Qed.

(** [train] returns on every input, from every state, and its outcome is
    the counted state with the two priors stored. *)
Lemma train_run (lines : list string) (self : Classifier) :
  exists self1,
    train_counts lines self = Ok (tt, self1)
    /\ counted (alphaVal self) (useBigrams self) (stopWords self) self1
    /\ train lines self
       = Ok (tt,
             set_logPriors
               (mkPerLabel (Fin (stored_prior self1 L1))
                  (Fin (stored_prior self1 L5)))
               self1).
Proof.
  destruct (train_counts_counted lines self) as (self1 & E & Hc).
  exists self1. split; [exact E |]. split; [exact Hc |].
  unfold train. rewrite (bind_run _ _ _ _ _ E). apply train_priors_run.
Qed.

(** [train] looks at the three attributes of the constructor only. *)
Lemma train_config (lines : list string) (self other : Classifier) :
  alphaVal other = alphaVal self -> useBigrams other = useBigrams self ->
  stopWords other = stopWords self -> train lines other = train lines self.
Proof.
  intros Ha Hb Hs. unfold train, train_counts.
  rewrite !bind_assoc_run.
  rewrite (bind_run _ _ _ _ _ (resetModel_run self)).
  rewrite (bind_run _ _ _ _ _ (resetModel_run other)).
  now rewrite (reset_state_config self other Ha Hb Hs).
Qed.

(** The counts the two training lines of the end-to-end scenario leave,
    among lines [train] skips. *)
Example train_counts_scenario :
  match
    train_counts
      ["1||this movie was terrible and boring"; "";
       "5||this movie was great and exciting"; "no fields"; "3||so so"]
      (blank 1 true)
  with
  | Ok (_, self) =>
      (totalDocs self, docCounts self, totalWordCounts self, vocabSize self,
       pl_get (wordCounts self) L1 !! "terribl")
  | Raise _ => (0, pl_const 0, pl_const 0, 0, None)
  end
  = (2, mkPerLabel 1 1, mkPerLabel 5 5, 9, Some 1).
Proof. vm_compute. reflexivity. Qed.

End Training.

(** C4: [train] returns on every list of lines, from every state, and in the
    state it leaves the number of documents is the sum of the per-label
    document counts, the number of words of each label is the sum of its
    word counts, and the vocabulary size is at least 1. *)
Theorem C4_train_invariants (self : Classifier) (lines : list string) :
  exists self',
    train lines self = Ok (tt, self')
    /\ totalDocs self' = sum_list (map (pl_get (docCounts self')) labels)
    /\ (forall label,
          pl_get (totalWordCounts self') label
          = dict_sum (pl_get (wordCounts self') label))
    /\ 1 <= vocabSize self'.
Proof.
  destruct (train_run lines self) as (self1 & _ & [_ _ _ Hd Hw Hv] & E).
  eexists. split; [exact E |].
  cbn [totalDocs docCounts totalWordCounts wordCounts vocabSize set_logPriors].
  split; [| split; assumption].
  rewrite Hd. unfold labels. cbn. lia.
Qed.

(** C5: after training with a positive [alpha] on lines that leave at least
    one document, both log-priors are finite, the exponential of each is the
    smoothed share of its label, (docCounts + alpha) / (totalDocs + 2 alpha),
    and the two shares add up to 1. *)
Theorem C5_priors_sum_to_one (self self' : Classifier) (lines : list string) :
  (0 < alphaVal self)%R ->
  train lines self = Ok (tt, self') ->
  0 < totalDocs self' ->
  exists p1 p5 : R,
    pl_get (logPriors self') L1 = Fin p1
    /\ pl_get (logPriors self') L5 = Fin p5
    /\ exp p1 = ((INR (pl_get (docCounts self') L1) + alphaVal self')
                 / (INR (totalDocs self') + 2 * alphaVal self'))%R
    /\ exp p5 = ((INR (pl_get (docCounts self') L5) + alphaVal self')
                 / (INR (totalDocs self') + 2 * alphaVal self'))%R
    /\ (exp p1 + exp p5 = 1)%R.
Proof.
  intros Ha Htrain Hdocs.
  destruct (train_run lines self) as (self1 & _ & [Hal _ _ Hd _ _] & E).
  rewrite E in Htrain. injection Htrain as <-.
  cbn [logPriors docCounts totalDocs alphaVal set_logPriors pl_get at1 at5] in *.
  rewrite <- Hal in Ha.
  set (a := alphaVal self1) in *.
  set (n1 := at1 (docCounts self1)) in *.
  set (n5 := at5 (docCounts self1)) in *.
  assert (H1 : (0 <= INR n1)%R) by apply pos_INR.
  assert (H5 : (0 <= INR n5)%R) by apply pos_INR.
  assert (Hden : prior_denominator self1 = (INR (totalDocs self1) + 2 * a)%R).
  { unfold prior_denominator, labels. cbn [length INR]. fold a. lra. }
  assert (Htot : INR (totalDocs self1) = (INR n1 + INR n5)%R).
  { rewrite Hd. apply plus_INR. }
  assert (Hpos : (0 < INR (totalDocs self1) + 2 * a)%R) by lra.
  assert (Hs : forall label,
             exp (stored_prior self1 label)
             = ((INR (pl_get (docCounts self1) label) + a)
                / (INR (totalDocs self1) + 2 * a))%R).
  { intros label. unfold stored_prior. fold a. rewrite Hden.
    rewrite guard_denominator_id by lra.
    assert (0 < (INR (pl_get (docCounts self1) label) + a)
                / (INR (totalDocs self1) + 2 * a))%R.
    { apply div_pos; [| exact Hpos].
      pose proof (pos_INR (pl_get (docCounts self1) label)). lra. }
    rewrite clamp_id by assumption. now apply exp_ln. }
  exists (stored_prior self1 L1), (stored_prior self1 L5).
  split; [reflexivity |]. split; [reflexivity |].
  rewrite !Hs. cbn [pl_get]. fold n1 n5.
  split; [reflexivity |]. split; [reflexivity |].
  rewrite Htot. field. lra.
Qed.

(** C5 for [alpha = 1] and one document. *)
Lemma C5_priors_sum_to_one_witness :
  exists self' : Classifier,
    (0 < alphaVal (blank 1 true))%R
    /\ train ["1||bad"] (blank 1 true) = Ok (tt, self')
    /\ 0 < totalDocs self'
    /\ exists p1 p5 : R,
         pl_get (logPriors self') L1 = Fin p1
         /\ pl_get (logPriors self') L5 = Fin p5
         /\ exp p1 = ((INR (pl_get (docCounts self') L1) + alphaVal self')
                      / (INR (totalDocs self') + 2 * alphaVal self'))%R
         /\ exp p5 = ((INR (pl_get (docCounts self') L5) + alphaVal self')
                      / (INR (totalDocs self') + 2 * alphaVal self'))%R
         /\ (exp p1 + exp p5 = 1)%R.
Proof.
  destruct (train_run ["1||bad"] (blank 1 true)) as (self1 & E1 & _ & E).
  assert (Hdocs : totalDocs self1 = 1).
  { assert (H : match train_counts ["1||bad"] (blank 1 true) with
                | Ok (_, s) => totalDocs s
                | Raise _ => 0
                end = 1) by (vm_compute; reflexivity).
    now rewrite E1 in H. }
  assert (Halpha : (0 < alphaVal (blank 1 true))%R)
    by (cbn [alphaVal blank]; lra).
  eexists. split; [exact Halpha |]. split; [exact E |].
  assert (Hpos : 0 < totalDocs
                       (set_logPriors
                          (mkPerLabel (Fin (stored_prior self1 L1))
                             (Fin (stored_prior self1 L5))) self1)).
  { cbn [totalDocs set_logPriors]. rewrite Hdocs. lia. }
  split; [exact Hpos |].
  exact (C5_priors_sum_to_one (blank 1 true) _ ["1||bad"] Halpha E Hpos).
Defined.

(** C6: training twice on the same lines leaves the state that training
    once leaves, and so does training from any other state of an instance
    with the same [alpha], bigram mode and stop words: nothing of the state
    before the call is left. *)
Theorem C6_train_replaces (self : Classifier) (lines : list string) :
  exists self1,
    train lines self = Ok (tt, self1)
    /\ train lines self1 = Ok (tt, self1)
    /\ forall other : Classifier,
         alphaVal other = alphaVal self ->
         useBigrams other = useBigrams self ->
         stopWords other = stopWords self ->
         train lines other = Ok (tt, self1).
Proof.
  destruct (train_run lines self) as (self1 & _ & [Ha Hb Hs _ _ _] & E).
  eexists. split; [exact E |].
  assert (Hall : forall other : Classifier,
            alphaVal other = alphaVal self ->
            useBigrams other = useBigrams self ->
            stopWords other = stopWords self ->
            train lines other
            = Ok (tt,
                  set_logPriors
                    (mkPerLabel (Fin (stored_prior self1 L1))
                       (Fin (stored_prior self1 L5))) self1)).
  { intros other Hoa Hob Hos. rewrite <- E. now apply train_config. }
  split; [| exact Hall].
  apply Hall; cbn [alphaVal useBigrams stopWords set_logPriors]; assumption.
Qed.

(** ** Classification *)

Section Classification.
Import PyStr.

Lemma xgtb_irrefl (x : xreal) : xgtb x x = false.
Proof.
  destruct x as [|a]; [reflexivity |]. cbn.
  destruct (Rgt_dec a a) as [H |]; [| reflexivity].
  exfalso. revert H. apply Rgt_irrefl.
Qed.

Lemma xgtb_true (x y : xreal) : xgtb x y = true -> xlt y x.
Proof.
  destruct x as [|a], y as [|b]; cbn; try discriminate; [trivial |].
  destruct (Rgt_dec a b) as [H |]; [intros _; exact H | discriminate].
Qed.

Lemma xgtb_false (x y : xreal) : xgtb x y = false -> xle x y.
Proof.
  destruct x as [|a], y as [|b]; cbn; try discriminate.
  - intros _. now right.
  - intros _. now left.
  - destruct (Rgt_dec a b) as [| H]; [discriminate |]. intros _.
    apply Rnot_gt_le in H. destruct H as [H | ->]; [now left | now right].
Qed.

Lemma cache_getitem (self : Classifier) (label : Label) :
  ld_getitem (denominator_cache self) label = Ok (denominator self label).
Proof. now destruct label. Qed.

Lemma token_loop_run (self : Classifier) (label : Label) (denom : R)
    (feats : list string) (logScore : xreal) :
  denom = guard_denominator (denominator self label) ->
  foldR
    (fun logScore token =>
       let! value := token_value self denom label token in
       let value := clamp value in
       let! lg := math_log value in
       Ok (xadd logScore (Fin lg)))
    feats logScore
  = Ok (fold_left
          (fun logScore token => xadd logScore (Fin (token_log self label token)))
          feats logScore).
Proof.
  intros ->. revert logScore.
  induction feats as [|token feats IH]; intros logScore; [reflexivity |].
  cbn [foldR fold_left]. unfold token_value at 1.
  rewrite truediv_run by apply guard_denominator_nonzero. cbn [bindR].
  rewrite math_log_run by apply clamp_pos. cbn [bindR].
  apply IH.
Qed.

Lemma label_score_run (self : Classifier) (feats : list string) (label : Label) :
  label_score self (denominator_cache self) feats label
  = Ok (log_score self feats label).
Proof.
  unfold label_score, log_score.
  destruct (pl_get (docCounts self) label =? 0); [reflexivity |].
  rewrite cache_getitem. cbn [bindR]. now apply token_loop_run.
Qed.

(** The score card [classify] fills for a list of features. *)
Lemma score_card_run (self : Classifier) (feats : list string) :
  score_card self (denominator_cache self) feats
  = Ok (ld_set (ld_set ld_empty L1 (log_score self feats L1))
          L5 (log_score self feats L5)).
Proof.
  unfold score_card, labels. cbn [foldR].
  rewrite !label_score_run. reflexivity.
Qed.

Lemma best_label_run (s1 s5 : xreal) :
  best_label (ld_set (ld_set ld_empty L1 s1) L5 s5)
  = Ok (if xgtb s5 s1 then L5 else L1).
Proof.
  unfold best_label, labels. cbn [foldR].
  change (ld_get (ld_set (ld_set ld_empty L1 s1) L5 s5) L1 NegInf) with s1.
  change (ld_get (ld_set (ld_set ld_empty L1 s1) L5 s5) L5 NegInf) with s5.
  cbn [snd]. rewrite xgtb_irrefl. cbn [bindR snd].
  destruct (xgtb s5 s1); reflexivity.
Qed.

Lemma classify_line_run (self : Classifier) (predictions : list string)
    (rawLine : string) :
  classify_line (denominator_cache self) predictions rawLine self
  = Ok (predictions ++ [label_str (predicted_label self rawLine)], self).
Proof.
  unfold classify_line.
  rewrite (bind_run _ _ _ _ _ (extractFeatures_run (line_text rawLine) self)).
  unfold bind at 1, get.
  rewrite score_card_run. unfold bind at 1, lift at 1.
  rewrite best_label_run. reflexivity.
Qed.

Lemma fold_append_map {A : Type} (f : A -> string) (l : list A)
    (acc : list string) :
  fold_left (fun predictions x => predictions ++ [f x]) l acc = acc ++ map f l.
Proof.
  revert acc. induction l as [|x l IH]; intros acc; cbn [fold_left map].
  - now rewrite app_nil_r.
  - now rewrite IH, <- app_assoc.
Qed.

(** [classify] returns on every list of lines, in every state, leaves the
    state as it is and predicts line by line. *)
Lemma classify_run (lines : list string) (self : Classifier) :
  classify lines self
  = Ok (map (fun rawLine => label_str (predicted_label self rawLine)) lines,
        self).
Proof.
  unfold classify. unfold bind at 1, get.
  rewrite (bind_run _ _ _
             (fold_left
                (fun predictions rawLine =>
                   predictions ++ [label_str (predicted_label self rawLine)])
                lines []) self).
  - unfold ret. now rewrite fold_append_map.
  - apply foldM_read. intros b x. apply classify_line_run.
Qed.

Lemma predicted_first_greatest (score : Label -> xreal) :
  first_greatest score (if xgtb (score L5) (score L1) then L5 else L1).
Proof.
  destruct (xgtb (score L5) (score L1)) eqn:E.
  - apply xgtb_true in E. split.
    + intros []; [now left | now right].
    + now intros label [-> _].
  - apply xgtb_false in E. split.
    + intros []; [now right | exact E].
    + intros label [_ H]. discriminate H.
Qed.

Lemma count_char_lstrip (sep : ascii) (s : string) :
  isspace sep = false -> count_char sep (lstrip s) = count_char sep s.
Proof.
  intros Hsep. induction s as [|c s IH]; [reflexivity |].
  cbn [lstrip]. destruct (isspace c) eqn:Ec; [| reflexivity].
  cbn [count_char]. destruct (Ascii.eqb_spec c sep) as [-> |]; [congruence |].
  exact IH.
Qed.

Lemma count_char_rstrip (sep : ascii) (s : string) :
  isspace sep = false -> count_char sep (rstrip s) = count_char sep s.
Proof.
  intros Hsep. induction s as [|c s IH]; [reflexivity |].
  cbn [rstrip count_char]. destruct (rstrip s) as [|c' r] eqn:Er.
  - cbn [count_char] in IH. rewrite <- IH.
    destruct (isspace c) eqn:Ec; cbn [count_char]; [| lia].
    destruct (Ascii.eqb_spec c sep) as [-> |]; [congruence | reflexivity].
  - rewrite <- IH. reflexivity.
Qed.

Lemma split_sep_go_length (sep : ascii) (maxsplit : nat) (cur s : string) :
  length (split_sep_go sep maxsplit cur s) = 1 + min maxsplit (count_char sep s).
Proof.
  revert maxsplit cur. induction s as [|c s IH]; intros maxsplit cur.
  - cbn. lia.
  - cbn [split_sep_go count_char]. destruct maxsplit as [|k]; [reflexivity |].
    destruct (Ascii.eqb c sep).
    + cbn [length]. rewrite IH. lia.
    + rewrite IH. reflexivity.
Qed.

(** Stripping a line does not change the number of its fields. *)
Lemma split_sep_strip_length (s : string) :
  length (split_sep "|" 2 (strip s)) = length (split_sep "|" 2 s).
Proof.
  unfold split_sep, strip. rewrite !split_sep_go_length.
  rewrite count_char_rstrip, count_char_lstrip; reflexivity.
Qed.

Lemma line_text_malformed (rawLine : string) :
  length (split_sep "|" 2 rawLine) <> 3 -> line_text rawLine = "".
Proof.
  intros H. rewrite <- split_sep_strip_length in H. unfold line_text.
  destruct (split_sep "|" 2 (strip rawLine)) as [|p0 [|p1 [|p2 [|p3 ps]]]];
    try reflexivity.
  now contradiction H.
Qed.

End Classification.

(** C2: in every state and for every line, the label [classify] predicts is
    the first label, in the order "1" then "5", whose score on the score card
    of the line is the greatest: no score is above it and every label before
    it has a strictly smaller score, so "1" stays on a tie. For an instance
    just constructed every score is negative infinity and the prediction is
    "1" for every line. *)
Theorem C2_first_greatest_label :
  (forall (self : Classifier) (lines : list string),
     exists preds : list string,
       classify lines self = Ok (preds, self)
       /\ Forall2
            (fun rawLine pred =>
               exists (feats : list string) (scoreCard : LDict xreal)
                      (best : Label),
                 _extractFeatures (line_text rawLine) self = Ok (feats, self)
                 /\ score_card self (denominator_cache self) feats
                    = Ok scoreCard
                 /\ best_label scoreCard = Ok best
                 /\ pred = label_str best
                 /\ first_greatest
                      (fun label => ld_get scoreCard label NegInf) best)
            lines preds)
  /\ (forall (alpha : R) (bigrams : bool),
        exists self : Classifier,
          __init__ alpha bigrams = Ok self
          /\ (forall (feats : list string) (label : Label),
                label_score self (denominator_cache self) feats label
                = Ok NegInf)
          /\ forall lines : list string,
               classify lines self = Ok (map (fun _ => "1") lines, self)).
Proof.
  split.
  - intros self lines. eexists. split; [apply classify_run |].
    induction lines as [|rawLine lines IH]; cbn [map]; constructor; [| exact IH].
    eexists _, _, _.
    split; [apply extractFeatures_run |].
    split; [apply score_card_run |].
    split; [apply best_label_run |].
    split; [reflexivity |].
    apply (predicted_first_greatest
             (fun label =>
                ld_get
                  (ld_set
                     (ld_set ld_empty L1
                        (log_score self (line_features self rawLine) L1))
                     L5 (log_score self (line_features self rawLine) L5))
                  label NegInf)).
  - intros alpha bigrams. exists (reset_state (blank alpha bigrams)).
    split; [reflexivity |].
    split; [intros feats label; now destruct label |].
    intros lines. rewrite classify_run. reflexivity.
Qed.

(** C3: in every state and on every list of lines [classify] returns, with
    one prediction per line: the predictions are as many as the lines and
    the i-th is the one [classify] gives for the i-th line alone. A line
    that does not split into three fields on at most two "|" is classified
    by the empty text, which has no feature: its prediction is the one
    [classify] gives for the empty line. *)
Theorem C3_one_label_per_line (self : Classifier) (lines : list string) :
  exists preds : list string,
    classify lines self = Ok (preds, self)
    /\ length preds = length lines
    /\ (forall (i : nat) (rawLine : string),
          lines !! i = Some rawLine ->
          exists pred : string,
            preds !! i = Some pred
            /\ classify [rawLine] self = Ok ([pred], self))
    /\ (forall rawLine : string,
          length (PyStr.split_sep "|" 2 rawLine) <> 3 ->
          line_text rawLine = ""
          /\ _extractFeatures (line_text rawLine) self = Ok ([], self)
          /\ classify [rawLine] self = classify [""] self).
Proof.
  eexists. split; [apply classify_run |].
  split; [apply length_map |]. split.
  - intros i rawLine Hi. eexists. split.
    + rewrite list_lookup_fmap, Hi. reflexivity.
    + apply classify_run.
  - intros rawLine H. apply line_text_malformed in H.
    split; [exact H |]. split.
    + rewrite H, extractFeatures_run.
      unfold features, tokenize. cbn. now rewrite andb_false_r.
    + rewrite !classify_run. cbn [map].
      unfold predicted_label, line_features. rewrite H.
      change (line_text "") with "". reflexivity.
Qed.

(** C9: [classify] leaves the instance as it found it: the state it returns
    is the state it was called in, and so is each attribute of the model. *)
Theorem C9_classify_reads_only (self : Classifier) (lines : list string) :
  exists (preds : list string) (self' : Classifier),
    classify lines self = Ok (preds, self')
    /\ self' = self
    /\ wordCounts self' = wordCounts self
    /\ (forall label,
          pl_get (wordCounts self') label = pl_get (wordCounts self) label)
    /\ totalWordCounts self' = totalWordCounts self
    /\ docCounts self' = docCounts self
    /\ totalDocs self' = totalDocs self
    /\ vocabSet self' = vocabSet self
    /\ vocabSize self' = vocabSize self
    /\ logPriors self' = logPriors self.
Proof.
  eexists _, self. split; [apply classify_run |]. now repeat split.
Qed.

(** ** The guards *)

Section Guards.
Local Open Scope R_scope.




End Guards.



(** ** The loop of [train] as a function of the state *)

Section Learning.

Lemma for_each_run {A : Type} (body : A -> M unit)
    (f : A -> Classifier -> Classifier) (l : list A) :
  (forall x self, body x self = Ok (tt, f x self)) ->
  forall self,
    for_each l body self = Ok (tt, fold_left (fun s x => f x s) l self).
Proof.
  intros Hbody. induction l as [|x l IH]; intros self; [reflexivity |].
  cbn [for_each fold_left]. rewrite (bind_run _ _ _ _ _ (Hbody x self)).
  apply IH.
Qed.

Lemma count_token_run (label : Label) (token : string) (self : Classifier) :
  count_token label token self = Ok (tt, add_token label token self).
Proof. reflexivity. Qed.

Lemma train_line_run (rawLine : string) (self : Classifier) :
  train_line rawLine self = Ok (tt, learn_line rawLine self).
Proof.
  unfold train_line, learn_line, record_label, line_features, line_text.
  destruct (String.eqb_spec rawLine "") as [-> | _]; [reflexivity |].
  destruct (String.eqb_spec (PyStr.strip rawLine) "") as [-> | _];
    [reflexivity |].
  destruct (PyStr.split_sep "|" 2 (PyStr.strip rawLine))
    as [|piece0 [|piece1 [|reviewText [|? ?]]]]; try reflexivity.
  destruct (find_label piece0) as [label |]; [| reflexivity].
  rewrite (bind_run _ _ _ _ _ (extractFeatures_run reviewText self)).
  unfold bind at 1, modify at 1. unfold bind at 1, modify at 1.
  cbn [useBigrams stopWords set_docCounts set_totalDocs].
  apply (for_each_run (count_token label) (add_token label)).
  intros x s. apply count_token_run.
Qed.

Lemma train_counts_run (lines : list string) (self : Classifier) :
  train_counts lines self
  = Ok (tt, size_vocabulary (learn lines (reset_state self))).
Proof.
  unfold train_counts.
  rewrite (bind_run _ _ _ _ _ (resetModel_run self)).
  rewrite (bind_run _ _ _ _ _
             (for_each_run train_line learn_line lines train_line_run
                (reset_state self))).
  unfold bind, get, size_vocabulary, learn.
  now destruct (0 <? size
                  (vocabSet
                     (fold_left (fun s x => learn_line x s) lines
                        (reset_state self)))).
Qed.

(** [train] returns the state [trained] describes. *)
Lemma train_trained (lines : list string) (self : Classifier) :
  train lines self = Ok (tt, trained lines self).
Proof.
  unfold train. rewrite (bind_run _ _ _ _ _ (train_counts_run lines self)).
  apply train_priors_run.
Qed.

End Learning.

(** ** The guards on binary64 numbers *)



(** * Further properties *)

(** ** More on the stemmer *)

Section StemmerMore.
Import PyStr PyStrFacts.

Lemma append_assoc (p q r : string) : (p +:+ q) +:+ r = p +:+ (q +:+ r).
Proof.
  induction p as [|c p IH]; [reflexivity |]. now rewrite !str_app_cons, IH.
Qed.

Lemma append_empty (p : string) : p +:+ "" = p.
Proof.
  induction p as [|c p IH]; [reflexivity |]. now rewrite str_app_cons, IH.
Qed.

Lemma is_prefix_refl (w : string) : is_prefix w w.
Proof. exists "". now rewrite append_empty. Qed.

Lemma is_prefix_trans (p q w : string) :
  is_prefix p q -> is_prefix q w -> is_prefix p w.
Proof. intros [s ->] [t ->]. exists (s +:+ t). apply append_assoc. Qed.

Lemma drop_end_prefix (n : nat) (w : string) : is_prefix (drop_end n w) w.
Proof.
  unfold drop_end. eexists. apply (substring_cut (len w - n) w). lia.
Qed.

Lemma is_prefix_len (p w : string) : is_prefix p w -> len p <= len w.
Proof. intros [s ->]. rewrite len_app. lia. Qed.

Lemma strip_first_ending_prefix (es : list string) (word : string) :
  is_prefix (strip_first_ending es word) word.
Proof.
  induction es as [|ending rest IH]; cbn [strip_first_ending].
  - apply is_prefix_refl.
  - destruct (endswith word ending && (3 <=? len word - len ending));
      [apply drop_end_prefix | exact IH].
Qed.

Lemma strip_if_longer_prefix (suffix : string) (bound : nat) (word : string) :
  is_prefix (strip_if_longer suffix bound word) word.
Proof.
  unfold strip_if_longer.
  destruct (endswith word suffix && (bound <? len word));
    [apply drop_end_prefix | apply is_prefix_refl].
Qed.

Lemma qualifies_test (word ending : string) :
  endswith word ending && (3 <=? len word - len ending) = true
  <-> qualifies word ending.
Proof.
  split.
  - intros H. apply andb_true_iff in H as [He Hl].
    apply Nat.leb_le in Hl. exists (drop_end (len ending) word).
    split; [now apply endswith_inv | rewrite len_drop_end; exact Hl].
  - intros (p & -> & Hp). rewrite endswith_app, len_app. cbn [andb].
    apply Nat.leb_le. lia.
Qed.

Lemma stemWord_prefix (word : string) : is_prefix (_stemWord word) word.
Proof.
  unfold _stemWord. destruct (len word <=? 3); [apply is_prefix_refl |].
  cbv zeta.
  destruct (String.eqb (strip_tail (strip_first_ending endings word)) "");
    [apply is_prefix_refl |].
  unfold strip_tail.
  eapply is_prefix_trans; [apply strip_if_longer_prefix |].
  eapply is_prefix_trans; [apply strip_if_longer_prefix |].
  eapply is_prefix_trans; [apply strip_if_longer_prefix |].
  apply strip_first_ending_prefix.
Qed.

End StemmerMore.

(** X1: the stemmer only removes characters from the end of a word, and
    never below three characters: the stem is a prefix of the word, a word
    of at most three characters is its own stem, and the stem of a longer
    word has at least three characters. *)
Theorem X1_stem_is_prefix (word : string) :
  is_prefix (_stemWord word) word
  /\ PyStr.len (_stemWord word) <= PyStr.len word
  /\ (PyStr.len word <= 3 -> _stemWord word = word)
  /\ (3 <= PyStr.len word -> 3 <= PyStr.len (_stemWord word)).
Proof.
  pose proof (stemWord_prefix word) as Hp.
  split; [exact Hp |]. split; [now apply is_prefix_len |].
  assert (Hshort : PyStr.len word <= 3 -> _stemWord word = word).
  { intros H. unfold _stemWord. apply Nat.leb_le in H. now rewrite H. }
  split; [exact Hshort |].
  intros H3. destruct (Nat.eq_dec (PyStr.len word) 3) as [E | E].
  - rewrite Hshort by lia. lia.
  - rewrite stemWord_long by lia.
    apply strip_tail_len, strip_first_ending_len. lia.
Qed.

(** X2: the loop over the endings removes the first ending of the list,
    not the longest, that the word ends with and that leaves at least three
    characters; when no ending of the list does, the word is kept. *)
Theorem X2_first_ending_wins (es : list string) (word : string) :
  (strip_first_ending es word = word
   /\ forall e, e ∈ es -> ~ qualifies word e)
  \/ (exists (i : nat) (e p : string),
        es !! i = Some e
        /\ word = p +:+ e
        /\ 3 <= PyStr.len p
        /\ strip_first_ending es word = p
        /\ forall (j : nat) (e' : string),
             j < i -> es !! j = Some e' -> ~ qualifies word e').
Proof.
  induction es as [|ending rest IH]; cbn [strip_first_ending].
  - left. split; [reflexivity |]. intros e He. inversion He.
  - destruct (PyStr.endswith word ending
              && (3 <=? PyStr.len word - PyStr.len ending)) eqn:E.
    + right. apply qualifies_test in E as Hq. destruct Hq as (p & Hw & Hp).
      exists 0, ending, p. split; [reflexivity |]. split; [exact Hw |].
      split; [exact Hp |]. split.
      * rewrite Hw. apply PyStrFacts.drop_end_app.
      * intros j e' Hj. lia.
    + assert (Hn : ~ qualifies word ending).
      { intros Hq. apply qualifies_test in Hq. congruence. }
      destruct IH as [[Hres Hall] | (i & e & p & Hi & Hw & Hp & Hres & Hbefore)].
      * left. split; [exact Hres |].
        intros e He. apply elem_of_cons in He as [-> | He]; auto.
      * right. exists (S i), e, p. repeat (split; [assumption |]).
        intros [|j] e' Hj Hl.
        -- cbn in Hl. injection Hl as <-. exact Hn.
        -- apply (Hbefore j e'); [lia | exact Hl].
Qed.

(** ** More on tokens and features *)

Section TokensMore.
Import PyStr PyStrFacts.

Lemma all_chars_app (test : ascii -> bool) (a b : string) :
  all_chars test (a +:+ b) = all_chars test a && all_chars test b.
Proof.
  induction a as [|c a IH]; [reflexivity |].
  rewrite str_app_cons. cbn [all_chars]. now rewrite IH, andb_assoc.
Qed.

Lemma clean_kept (s : string) : all_chars kept_char (clean s) = true.
Proof.
  induction s as [|c s IH]; [reflexivity |]. cbn [clean].
  destruct (kept_char c) eqn:E; cbn [all_chars]; [now rewrite E |].
  exact IH.
Qed.

Lemma kept_not_space (c : ascii) :
  kept_char c = true -> isspace c = false -> word_char c = true.
Proof.
  unfold kept_char, word_char. intros H Hs. rewrite Hs in H.
  now rewrite orb_false_r in H.
Qed.

Lemma word_char_facts (c : ascii) :
  word_char c = true ->
  lower_char c = c /\ kept_char c = true /\ isspace c = false.
Proof.
  destruct c as [[] [] [] [] [] [] [] []]; intros H; vm_compute in H;
    (discriminate H || (vm_compute; auto)).
Qed.

Lemma split_go_word_chars (cur s : string) :
  all_chars word_char cur = true -> all_chars kept_char s = true ->
  Forall (fun tok => all_chars word_char tok = true) (split_go cur s).
Proof.
  revert cur. induction s as [|c s IH]; intros cur Hcur Hs; cbn [split_go].
  - destruct (String.eqb cur ""); [constructor |]. now repeat constructor.
  - cbn [all_chars] in Hs. apply andb_true_iff in Hs as [Hc Hs].
    destruct (isspace c) eqn:Ec.
    + destruct (String.eqb cur "");
        [| constructor; [exact Hcur |]]; now apply IH.
    + apply IH; [| exact Hs].
      rewrite all_chars_app, Hcur. cbn [all_chars andb].
      rewrite (kept_not_space c Hc Ec). reflexivity.
Qed.

Lemma tokenize_word_chars (stop : gset string) (text : string) :
  Forall (fun tok => all_chars word_char tok = true) (tokenize stop text).
Proof.
  unfold tokenize, split.
  pose proof (split_go_word_chars "" (clean (lower text)) eq_refl
                (clean_kept _)) as H.
  induction H as [|tok toks Htok _ IH]; [constructor |].
  rewrite filter_cons. destruct (decide (tok ∉ stop)); [| exact IH].
  cbn [map]. constructor; [| exact IH].
  destruct (stemWord_prefix tok) as [s Hs].
  rewrite Hs, all_chars_app in Htok.
  now apply andb_true_iff in Htok as [Htok _].
Qed.

Lemma bigrams_elem (tokens : list string) (g : string) :
  g ∈ bigrams tokens ->
  exists a b, a ∈ tokens /\ b ∈ tokens /\ g = a +:+ "_" +:+ b.
Proof.
  induction tokens as [|x [|y rest] IH]; intros Hg.
  - inversion Hg.
  - inversion Hg.
  - change (bigrams (x :: y :: rest))
      with ((x +:+ "_" +:+ y) :: bigrams (y :: rest)) in Hg.
    apply elem_of_cons in Hg as [-> | Hg].
    + exists x, y. split; [left |]. split; [right; left | reflexivity].
    + destruct (IH Hg) as (a & b & Ha & Hb & E).
      exists a, b. split; [now right |]. split; [now right | exact E].
Qed.

Lemma lower_char_idem (c : ascii) : lower_char (lower_char c) = lower_char c.
Proof. destruct c as [[] [] [] [] [] [] [] []]; reflexivity. Qed.

Lemma lower_idem (s : string) : lower (lower s) = lower s.
Proof.
  induction s as [|c s IH]; [reflexivity |].
  cbn [lower]. now rewrite lower_char_idem, IH.
Qed.

Lemma lower_app (a b : string) : lower (a +:+ b) = lower a +:+ lower b.
Proof.
  induction a as [|c a IH]; [reflexivity |].
  rewrite str_app_cons. cbn [lower]. now rewrite IH, str_app_cons.
Qed.

Lemma clean_app (a b : string) : clean (a +:+ b) = clean a +:+ clean b.
Proof.
  induction a as [|c a IH]; [reflexivity |].
  rewrite str_app_cons. cbn [clean]. rewrite IH.
  destruct (kept_char c); now rewrite ?str_app_cons.
Qed.

Lemma lower_word (w : string) : all_chars word_char w = true -> lower w = w.
Proof.
  induction w as [|c w IH]; [reflexivity |]. cbn [all_chars lower].
  intros H. apply andb_true_iff in H as [Hc Hw].
  destruct (word_char_facts c Hc) as (-> & _ & _). now rewrite IH.
Qed.

Lemma clean_word (w : string) : all_chars word_char w = true -> clean w = w.
Proof.
  induction w as [|c w IH]; [reflexivity |]. cbn [all_chars clean].
  intros H. apply andb_true_iff in H as [Hc Hw].
  destruct (word_char_facts c Hc) as (_ & -> & _). now rewrite IH.
Qed.

Lemma split_go_word (cur w rest : string) :
  all_chars word_char w = true ->
  split_go cur (w +:+ rest) = split_go (cur +:+ w) rest.
Proof.
  revert cur. induction w as [|c w IH]; intros cur H.
  - now rewrite append_empty.
  - cbn [all_chars] in H. apply andb_true_iff in H as [Hc Hw].
    destruct (word_char_facts c Hc) as (_ & _ & Hs).
    rewrite str_app_cons. cbn [split_go]. rewrite Hs.
    rewrite (IH _ Hw), append_assoc. reflexivity.
Qed.

(** Words without separators, joined by single spaces, are the words
    [split] finds, and lowering and cleaning leave them as they are. *)
Lemma split_joined (ws : list string) :
  Forall (fun w => all_chars word_char w = true /\ w <> "") ws ->
  split (clean (lower (String.concat " " ws))) = ws.
Proof.
  unfold split. induction 1 as [|w ws [Hw Hne] Hws IH]; [reflexivity |].
  destruct ws as [|w2 ws].
  - cbn [String.concat]. rewrite (lower_word w Hw), (clean_word w Hw).
    rewrite <- (append_empty w) at 1. rewrite split_go_word by exact Hw.
    change ("" +:+ w) with w. cbn [split_go].
    destruct (String.eqb_spec w ""); [contradiction | reflexivity].
  - change (String.concat " " (w :: w2 :: ws))
      with (w +:+ " " +:+ String.concat " " (w2 :: ws)).
    rewrite !lower_app, !clean_app.
    rewrite (lower_word w Hw), (clean_word w Hw).
    rewrite split_go_word by exact Hw.
    change ("" +:+ w) with w.
    change (clean (lower " ")) with " ".
    rewrite str_app_cons. cbn [split_go].
    change (isspace " ") with true. cbn match.
    change ("" +:+ clean (lower (String.concat " " (w2 :: ws))))
      with (clean (lower (String.concat " " (w2 :: ws)))).
    destruct (String.eqb_spec w ""); [contradiction |].
    now rewrite IH.
Qed.

Lemma stopwords_are_words (w : string) :
  w ∈ _buildStopwords -> all_chars word_char w = true /\ w <> "".
Proof.
  intros Hw.
  assert (Hall : forallb
                   (fun w => all_chars word_char w && negb (String.eqb w ""))
                   (elements _buildStopwords) = true)
    by (vm_compute; reflexivity).
  rewrite forallb_forall in Hall.
  apply elem_of_elements, list_elem_of_In, Hall in Hw.
  apply andb_true_iff in Hw as [Hc Hn]. split; [exact Hc |].
  intros ->. discriminate Hn.
Qed.

Lemma stopword_member (w : string) :
  existsb (String.eqb w) (elements _buildStopwords) = true ->
  w ∈ _buildStopwords.
Proof.
  intros H. apply existsb_exists in H as (x & Hx & E).
  apply String.eqb_eq in E as ->.
  apply list_elem_of_In in Hx. apply elem_of_elements in Hx. exact Hx.
Qed.

End TokensMore.

(** X3: whatever the text, a token is never empty and is made of lower-case
    letters, digits and apostrophes only: no upper-case letter, white space,
    punctuation or underscore gets into a token. *)
Theorem X3_token_characters (self : Classifier) (text : string) :
  exists tokens : list string,
    _tokenizeText text self = Ok (tokens, self)
    /\ Forall (fun tok => tok <> "" /\ all_chars word_char tok = true) tokens.
Proof.
  eexists. split; [apply tokenizeText_run |].
  apply Forall_and. split;
    [apply tokenize_nonempty | apply tokenize_word_chars].
Qed.

(** X4: every bigram feature is two tokens of the text joined by an
    underscore, and no bigram feature is equal to a unigram feature of the
    same text: the two kinds of feature never share a counter. *)
Theorem X4_bigrams_apart (self : Classifier) (text : string) :
  exists tokens grams : list string,
    _tokenizeText text self = Ok (tokens, self)
    /\ _extractFeatures text self = Ok (tokens ++ grams, self)
    /\ (forall g, g ∈ grams ->
        exists a b, a ∈ tokens /\ b ∈ tokens /\ g = a +:+ "_" +:+ b)
    /\ (forall tok g, tok ∈ tokens -> g ∈ grams -> tok <> g).
Proof.
  set (tokens := tokenize (stopWords self) text).
  exists tokens.
  exists (if useBigrams self && (1 <? length tokens) then bigrams tokens else []).
  split; [apply tokenizeText_run |].
  split; [apply extractFeatures_run |].
  assert (Hg : forall g,
            g ∈ (if useBigrams self && (1 <? length tokens)
                 then bigrams tokens else []) ->
            exists a b, a ∈ tokens /\ b ∈ tokens /\ g = a +:+ "_" +:+ b).
  { intros g Hin.
    destruct (useBigrams self && (1 <? length tokens));
      [now apply bigrams_elem | inversion Hin]. }
  split; [exact Hg |].
  intros tok g Htok Hin ->. destruct (Hg _ Hin) as (a & b & _ & _ & E).
  pose proof (tokenize_word_chars (stopWords self) text) as Hall.
  rewrite Forall_forall in Hall. specialize (Hall _ Htok).
  rewrite E, all_chars_app in Hall.
  apply andb_true_iff in Hall as [_ Hall].
  change ("_" +:+ b) with (String "_" b) in Hall.
  cbn [all_chars] in Hall. discriminate Hall.
Qed.

(** X5: tokens and features do not depend on the case of the letters: two
    texts that are equal once lowered have the same tokens and the same
    features, and so have a text and its lowered form. *)
Theorem X5_case_insensitive (self : Classifier) (text1 text2 : string) :
  PyStr.lower text1 = PyStr.lower text2 ->
  _tokenizeText text1 self = _tokenizeText text2 self
  /\ _extractFeatures text1 self = _extractFeatures text2 self
  /\ _extractFeatures (PyStr.lower text1) self = _extractFeatures text1 self.
Proof.
  intros H. rewrite !tokenizeText_run, !extractFeatures_run.
  unfold tokenize. now rewrite lower_idem, H.
Qed.

(** X5 at a text in capitals and the same text in lower case. *)
Lemma X5_case_insensitive_witness :
  PyStr.lower "A GREAT Movie" = PyStr.lower "a great movie"
  /\ _tokenizeText "A GREAT Movie" (blank 1 true)
     = _tokenizeText "a great movie" (blank 1 true)
  /\ _extractFeatures "A GREAT Movie" (blank 1 true)
     = _extractFeatures "a great movie" (blank 1 true)
  /\ _extractFeatures (PyStr.lower "A GREAT Movie") (blank 1 true)
     = _extractFeatures "A GREAT Movie" (blank 1 true).
Proof.
  assert (H : PyStr.lower "A GREAT Movie" = PyStr.lower "a great movie")
    by reflexivity.
  split; [exact H |].
  exact (X5_case_insensitive (blank 1 true) _ _ H).
Defined.

(** X6: a text made of stop words of the constructor joined by single
    spaces has no token, and so no feature. *)
Theorem X6_stopwords_only (self : Classifier) (ws : list string) :
  stopWords self = _buildStopwords ->
  Forall (fun w => w ∈ _buildStopwords) ws ->
  _tokenizeText (String.concat " " ws) self = Ok ([], self)
  /\ _extractFeatures (String.concat " " ws) self = Ok ([], self).
Proof.
  intros Hstop Hws.
  assert (Ht : tokenize (stopWords self) (String.concat " " ws) = []).
  { unfold tokenize. rewrite split_joined.
    - rewrite Hstop. induction Hws as [|w ws Hw _ IH]; [reflexivity |].
      rewrite filter_cons. now destruct (decide (w ∉ _buildStopwords)).
    - eapply Forall_impl; [exact Hws |]. apply stopwords_are_words. }
  rewrite tokenizeText_run, extractFeatures_run, Ht.
  split; [reflexivity |]. unfold features. cbn [length Nat.ltb Nat.leb].
  now rewrite andb_false_r.
Qed.

(** X6 at three stop words. *)
Lemma X6_stopwords_only_witness :
  stopWords (blank 1 true) = _buildStopwords
  /\ Forall (fun w => w ∈ _buildStopwords) ["this"; "wasn't"; "the"]
  /\ _tokenizeText (String.concat " " ["this"; "wasn't"; "the"]) (blank 1 true)
     = Ok ([], blank 1 true)
  /\ _extractFeatures (String.concat " " ["this"; "wasn't"; "the"])
       (blank 1 true)
     = Ok ([], blank 1 true).
Proof.
  assert (Hs : stopWords (blank 1 true) = _buildStopwords) by reflexivity.
  assert (Hw : Forall (fun w => w ∈ _buildStopwords) ["this"; "wasn't"; "the"]).
  { apply Forall_cons_2; [apply stopword_member; vm_compute; reflexivity |].
    apply Forall_cons_2; [apply stopword_member; vm_compute; reflexivity |].
    apply Forall_cons_2; [apply stopword_member; vm_compute; reflexivity |].
    apply Forall_nil_2. }
  split; [exact Hs |]. split; [exact Hw |].
  exact (X6_stopwords_only (blank 1 true) _ Hs Hw).
Defined.

(** ** Lines and their fields *)

Section Fields.
Import PyStr PyStrFacts.

Lemma lstrip_app (l r : string) (c : ascii) :
  isspace c = false -> lstrip (l +:+ String c r) = lstrip l +:+ String c r.
Proof.
  intros Hc. induction l as [|a l IH].
  - change ("" +:+ String c r) with (String c r). cbn [lstrip]. now rewrite Hc.
  - rewrite str_app_cons. cbn [lstrip]. destruct (isspace a); [exact IH |].
    now rewrite str_app_cons.
Qed.

Lemma rstrip_app (l r : string) (c : ascii) :
  isspace c = false -> rstrip (l +:+ String c r) = l +:+ String c (rstrip r).
Proof.
  intros Hc. induction l as [|a l IH].
  - change ("" +:+ String c r) with (String c r).
    change ("" +:+ String c (rstrip r)) with (String c (rstrip r)).
    cbn [rstrip]. destruct (rstrip r); [now rewrite Hc | reflexivity].
  - rewrite !str_app_cons. cbn [rstrip]. rewrite IH.
    destruct (l +:+ String c (rstrip r)) eqn:E; [| reflexivity].
    apply (f_equal len) in E. rewrite len_app, len_cons in E.
    cbn in E. lia.
Qed.

Lemma lstrip_spaces (s : string) : all_chars isspace s = true -> lstrip s = "".
Proof.
  induction s as [|c s IH]; [reflexivity |]. cbn [all_chars lstrip].
  intros H. apply andb_true_iff in H as [Hc Hs]. now rewrite Hc, IH.
Qed.

Lemma split_sep_go_field (sep : ascii) (k : nat) (cur p s : string) :
  count_char sep p = 0 ->
  split_sep_go sep (S k) cur (p +:+ String sep s)
  = (cur +:+ p) :: split_sep_go sep k "" s.
Proof.
  revert cur. induction p as [|c p IH]; intros cur Hp.
  - change ("" +:+ String sep s) with (String sep s). cbn [split_sep_go].
    now rewrite Ascii.eqb_refl, append_empty.
  - cbn [count_char] in Hp. rewrite str_app_cons. cbn [split_sep_go].
    destruct (Ascii.eqb c sep); [discriminate Hp |].
    rewrite IH by exact Hp. now rewrite append_assoc.
Qed.

Lemma split_sep_go_last (sep : ascii) (s : string) :
  split_sep_go sep 0 "" s = [s].
Proof. now destruct s. Qed.

(** The fields of a line with three fields, as [train] and [classify] see
    them after stripping the line. *)
Lemma record_line_fields (l m t : string) :
  count_char "|" l = 0 -> count_char "|" m = 0 ->
  split_sep "|" 2 (strip (record_line l m t)) = [lstrip l; m; rstrip t].
Proof.
  intros Hl Hm. unfold record_line, strip, split_sep.
  change ("|" +:+ m +:+ "|" +:+ t) with (String "|" (m +:+ String "|" t)).
  rewrite lstrip_app by reflexivity.
  rewrite rstrip_app by reflexivity.
  rewrite rstrip_app by reflexivity.
  rewrite split_sep_go_field
    by (rewrite count_char_lstrip; [exact Hl | reflexivity]).
  rewrite split_sep_go_field by exact Hm.
  now rewrite split_sep_go_last.
Qed.

Lemma record_label_skipped (rawLine : string) :
  all_chars isspace rawLine = true \/ count_char "|" rawLine < 2 ->
  record_label rawLine = None.
Proof.
  unfold record_label. intros [Hs | Hc].
  - unfold strip. now rewrite lstrip_spaces.
  - pose proof (split_sep_strip_length rawLine) as Hlen.
    unfold split_sep at 2 in Hlen. rewrite split_sep_go_length in Hlen.
    destruct (split_sep "|" 2 (strip rawLine))
      as [|p0 [|p1 [|p2 [|p3 ps]]]]; try reflexivity.
    cbn [length] in Hlen. lia.
Qed.

End Fields.

(** X7: [train] skips a line made of white space only, a line with fewer
    than two "|", and a line with three fields whose first field, leading
    white space apart, is neither "1" nor "5": the round of the loop leaves
    the state as it is. *)
Theorem X7_train_skips (self : Classifier) (rawLine : string) :
  all_chars PyStr.isspace rawLine = true
  \/ PyStr.count_char "|" rawLine < 2
  \/ (exists l m t : string,
        rawLine = record_line l m t
        /\ PyStr.count_char "|" l = 0 /\ PyStr.count_char "|" m = 0
        /\ PyStr.lstrip l <> "1" /\ PyStr.lstrip l <> "5") ->
  train_line rawLine self = Ok (tt, self).
Proof.
  intros H. rewrite train_line_run. unfold learn_line.
  assert (Hnone : record_label rawLine = None).
  { destruct H as [H | [H | (l & m & t & -> & Hl & Hm & H1 & H5)]];
      [apply record_label_skipped; now left
      | apply record_label_skipped; now right |].
    unfold record_label. rewrite record_line_fields by assumption.
    unfold find_label.
    destruct (String.eqb_spec (PyStr.lstrip l) (label_str L1));
      [contradiction |].
    destruct (String.eqb_spec (PyStr.lstrip l) (label_str L5));
      [contradiction | reflexivity]. }
  now rewrite Hnone.
Qed.

(** X7 at a line without field separator. *)
Lemma X7_train_skips_witness :
  (all_chars PyStr.isspace "a great film" = true
   \/ PyStr.count_char "|" "a great film" < 2
   \/ (exists l m t : string,
         "a great film" = record_line l m t
         /\ PyStr.count_char "|" l = 0 /\ PyStr.count_char "|" m = 0
         /\ PyStr.lstrip l <> "1" /\ PyStr.lstrip l <> "5"))
  /\ train_line "a great film" (blank 1 true) = Ok (tt, blank 1 true).
Proof.
  assert (H : all_chars PyStr.isspace "a great film" = true
              \/ PyStr.count_char "|" "a great film" < 2
              \/ (exists l m t : string,
                    "a great film" = record_line l m t
                    /\ PyStr.count_char "|" l = 0
                    /\ PyStr.count_char "|" m = 0
                    /\ PyStr.lstrip l <> "1" /\ PyStr.lstrip l <> "5")).
  { right. left. vm_compute. lia. }
  split; [exact H | exact (X7_train_skips (blank 1 true) _ H)].
Defined.

(** X8: in a line with three fields the text is everything after the
    second "|", further "|" included, less its trailing white space; the
    label [train] reads is the first field less its leading white space;
    and [classify] looks at the text only: two lines with the same text get
    the same prediction whatever their first two fields. *)
Theorem X8_fields_of_a_line (self : Classifier) (l m l' m' t : string) :
  PyStr.count_char "|" l = 0 -> PyStr.count_char "|" m = 0 ->
  PyStr.count_char "|" l' = 0 -> PyStr.count_char "|" m' = 0 ->
  line_text (record_line l m t) = PyStr.rstrip t
  /\ record_label (record_line l m t) = find_label (PyStr.lstrip l)
  /\ classify [record_line l m t] self = classify [record_line l' m' t] self.
Proof.
  intros Hl Hm Hl' Hm'.
  assert (Ht : forall a b, PyStr.count_char "|" a = 0 ->
                 PyStr.count_char "|" b = 0 ->
                 line_text (record_line a b t) = PyStr.rstrip t).
  { intros a b Ha Hb. unfold line_text.
    now rewrite record_line_fields by assumption. }
  split; [now apply Ht |]. split.
  - unfold record_label. now rewrite record_line_fields by assumption.
  - rewrite !classify_run. cbn [map].
    unfold predicted_label, line_features.
    now rewrite (Ht l m Hl Hm), (Ht l' m' Hl' Hm').
Qed.

(** X8 at a positive review whose text contains a "|", against the same
    text labelled as negative. *)
Lemma X8_fields_of_a_line_witness :
  PyStr.count_char "|" "5" = 0 /\ PyStr.count_char "|" "id7" = 0
  /\ PyStr.count_char "|" "1" = 0 /\ PyStr.count_char "|" "" = 0
  /\ line_text (record_line "5" "id7" "good | fun ") = PyStr.rstrip "good | fun "
  /\ record_label (record_line "5" "id7" "good | fun ")
     = find_label (PyStr.lstrip "5")
  /\ classify [record_line "5" "id7" "good | fun "] (blank 1 true)
     = classify [record_line "1" "" "good | fun "] (blank 1 true).
Proof.
  assert (H1 : PyStr.count_char "|" "5" = 0) by reflexivity.
  assert (H2 : PyStr.count_char "|" "id7" = 0) by reflexivity.
  assert (H3 : PyStr.count_char "|" "1" = 0) by reflexivity.
  assert (H4 : PyStr.count_char "|" "" = 0) by reflexivity.
  repeat (split; [assumption |]).
  exact (X8_fields_of_a_line (blank 1 true) "5" "id7" "1" "" "good | fun "
           H1 H2 H3 H4).
Defined.

(** ** What the counting leaves *)

Section Counts.

Lemma add_tokens_fields (label : Label) (feats : list string)
    (self : Classifier) :
  alphaVal (add_tokens label feats self) = alphaVal self
  /\ useBigrams (add_tokens label feats self) = useBigrams self
  /\ stopWords (add_tokens label feats self) = stopWords self
  /\ docCounts (add_tokens label feats self) = docCounts self
  /\ totalDocs (add_tokens label feats self) = totalDocs self
  /\ logPriors (add_tokens label feats self) = logPriors self
  /\ vocabSize (add_tokens label feats self) = vocabSize self
  /\ forall l,
       pl_get (totalWordCounts (add_tokens label feats self)) l
       = pl_get (totalWordCounts self) l
         + (if decide (l = label) then length feats else 0).
Proof.
  unfold add_tokens. revert self.
  induction feats as [|token feats IH]; intros self; cbn [fold_left].
  - repeat (split; [reflexivity |]). intros l.
    destruct (decide (l = label)); cbn [length]; lia.
  - destruct (IH (add_token label token self))
      as (Ha & Hb & Hs & Hd & Ht & Hp & Hv & Hw).
    rewrite Ha, Hb, Hs, Hd, Ht, Hp, Hv.
    repeat (split; [reflexivity |]). intros l. rewrite Hw.
    cbn [add_token totalWordCounts length].
    destruct label, l; cbn; destruct (decide _); try congruence; lia.
Qed.

Lemma learn_line_fields (rawLine : string) (self : Classifier) :
  alphaVal (learn_line rawLine self) = alphaVal self
  /\ useBigrams (learn_line rawLine self) = useBigrams self
  /\ stopWords (learn_line rawLine self) = stopWords self
  /\ vocabSize (learn_line rawLine self) = vocabSize self
  /\ (forall l,
        pl_get (docCounts (learn_line rawLine self)) l
        = pl_get (docCounts self) l
          + (if decide (record_label rawLine = Some l) then 1 else 0))
  /\ totalDocs (learn_line rawLine self)
     = totalDocs self
       + match record_label rawLine with Some _ => 1 | None => 0 end
  /\ (forall l,
        pl_get (totalWordCounts (learn_line rawLine self)) l
        = pl_get (totalWordCounts self) l
          + (if decide (record_label rawLine = Some l)
             then length (line_features self rawLine) else 0)).
Proof.
  unfold learn_line. destruct (record_label rawLine) as [label |].
  - unfold add_record.
    destruct (add_tokens_fields label (line_features self rawLine)
                (add_document label self))
      as (Ha & Hb & Hs & Hd & Ht & _ & Hv & Hw).
    rewrite Ha, Hb, Hs, Hd, Ht, Hv.
    repeat (split; [reflexivity |]). split; [| split; [reflexivity |]].
    + intros l. cbn [add_document docCounts].
      destruct label, l; cbn; destruct (decide _); try congruence; lia.
    + intros l. rewrite Hw. cbn [add_document totalWordCounts].
      destruct (decide (l = label)), (decide (Some label = Some l));
        try congruence; reflexivity.
  - repeat (split; [reflexivity |]). split; [| split; [lia |]];
      intros l; destruct (decide _); try congruence; lia.
Qed.

Lemma learn_config (lines : list string) (self : Classifier) :
  alphaVal (learn lines self) = alphaVal self
  /\ useBigrams (learn lines self) = useBigrams self
  /\ stopWords (learn lines self) = stopWords self
  /\ vocabSize (learn lines self) = vocabSize self.
Proof.
  unfold learn. revert self.
  induction lines as [|rawLine lines IH]; intros self; cbn [fold_left];
    [now repeat split |].
  destruct (IH (learn_line rawLine self)) as (Ha & Hb & Hs & Hv).
  destruct (learn_line_fields rawLine self) as (Ha' & Hb' & Hs' & Hv' & _).
  rewrite Ha, Hb, Hs, Hv. now repeat split.
Qed.

Lemma line_features_config (self other : Classifier) (rawLine : string) :
  useBigrams other = useBigrams self -> stopWords other = stopWords self ->
  line_features other rawLine = line_features self rawLine.
Proof. unfold line_features. now intros -> ->. Qed.

Lemma learn_counts (lines : list string) (self : Classifier) :
  (forall l,
     pl_get (docCounts (learn lines self)) l
     = pl_get (docCounts self) l + length (records_of l lines))
  /\ totalDocs (learn lines self)
     = totalDocs self + length (records_of L1 lines)
       + length (records_of L5 lines)
  /\ (forall l,
        pl_get (totalWordCounts (learn lines self)) l
        = pl_get (totalWordCounts self) l
          + sum_list
              (map (fun rawLine => length (line_features self rawLine))
                 (records_of l lines))).
Proof.
  unfold learn, records_of. revert self.
  induction lines as [|rawLine lines IH]; intros self; cbn [fold_left].
  - split; [| split]; [intros l | | intros l]; cbn; lia.
  - destruct (IH (learn_line rawLine self)) as (Hd & Ht & Hw).
    destruct (learn_line_fields rawLine self)
      as (_ & Hb & Hs & _ & Hd' & Ht' & Hw').
    split; [| split].
    + intros l. rewrite Hd, Hd', filter_cons.
      destruct (decide (record_label rawLine = Some l)); cbn [length]; lia.
    + rewrite Ht, Ht', !filter_cons.
      destruct (record_label rawLine) as [[] |];
        repeat (destruct (decide _); try congruence); cbn [length]; lia.
    + intros l. rewrite Hw, Hw', filter_cons.
      rewrite (map_ext _ (fun r => length (line_features self r)))
        by (intros r; now rewrite (line_features_config self _ r Hb Hs)).
      destruct (decide (record_label rawLine = Some l));
        cbn [map sum_list sum_list_with]; unfold Datatypes.id; lia.
Qed.

Lemma incr_lookup (token other : string) (d : gmap string nat) :
  incr token d !! other
  = if decide (token = other) then Some (default 0 (d !! token) + 1)
    else d !! other.
Proof. unfold incr. apply lookup_insert. Qed.

Lemma add_token_vocabulary (label : Label) (token : string)
    (self : Classifier) :
  vocabulary_ok self -> vocabulary_ok (add_token label token self).
Proof.
  intros [Hv Hn]. split.
  - cbn [add_token vocabSet wordCounts]. rewrite Hv.
    destruct label; cbn [pl_get pl_set at1 at5]; unfold incr;
      rewrite dom_insert_L.
    + apply (assoc_L (∪)).
    + rewrite !(assoc_L (∪)). f_equal. apply (comm_L (∪)).
  - intros l tok n. cbn [add_token wordCounts].
    destruct label, l; cbn [pl_get pl_set at1 at5];
      [ | apply (Hn L5) | apply (Hn L1) | ];
      (rewrite incr_lookup; destruct (decide (token = tok));
       [intros [= <-]; lia | first [apply (Hn L1) | apply (Hn L5)]]).
Qed.

Lemma learn_line_vocabulary (rawLine : string) (self : Classifier) :
  vocabulary_ok self -> vocabulary_ok (learn_line rawLine self).
Proof.
  intros H. unfold learn_line.
  destruct (record_label rawLine) as [label |]; [| exact H].
  unfold add_record, add_tokens.
  assert (H0 : vocabulary_ok (add_document label self)) by exact H.
  revert H0. generalize (add_document label self).
  induction (line_features self rawLine) as [|token feats IH];
    intros s Hs; cbn [fold_left]; [exact Hs |].
  apply IH. now apply add_token_vocabulary.
Qed.

Lemma learn_vocabulary (lines : list string) (self : Classifier) :
  vocabulary_ok self -> vocabulary_ok (learn lines self).
Proof.
  unfold learn. revert self.
  induction lines as [|rawLine lines IH]; intros self H; cbn [fold_left];
    [exact H |].
  apply IH. now apply learn_line_vocabulary.
Qed.

Lemma reset_vocabulary (self : Classifier) : vocabulary_ok (reset_state self).
Proof.
  split.
  - cbn. rewrite dom_empty_L. symmetry. apply (left_id_L ∅ (∪)).
  - intros [] token n; cbn; rewrite lookup_empty; discriminate.
Qed.

Lemma size_vocabulary_fields (self : Classifier) :
  alphaVal (size_vocabulary self) = alphaVal self
  /\ useBigrams (size_vocabulary self) = useBigrams self
  /\ stopWords (size_vocabulary self) = stopWords self
  /\ wordCounts (size_vocabulary self) = wordCounts self
  /\ totalWordCounts (size_vocabulary self) = totalWordCounts self
  /\ docCounts (size_vocabulary self) = docCounts self
  /\ totalDocs (size_vocabulary self) = totalDocs self
  /\ vocabSet (size_vocabulary self) = vocabSet self.
Proof.
  unfold size_vocabulary.
  now destruct (0 <? size (vocabSet self)); repeat split.
Qed.

End Counts.

(** X9: after [train] the document count of a label is the number of lines
    accepted for that label, the total is the number of accepted lines, and
    the word total of a label is the number of features of its accepted
    lines, repetitions and bigrams included. *)
Theorem X9_counts_of_records (self : Classifier) (lines : list string) :
  exists self',
    train lines self = Ok (tt, self')
    /\ (forall label,
          pl_get (docCounts self') label = length (records_of label lines))
    /\ totalDocs self'
       = length (records_of L1 lines) + length (records_of L5 lines)
    /\ (forall label,
          pl_get (totalWordCounts self') label
          = sum_list
              (map (fun rawLine => length (line_features self rawLine))
                 (records_of label lines))).
Proof.
  eexists. split; [apply train_trained |].
  unfold trained. cbn [docCounts totalDocs totalWordCounts set_logPriors].
  destruct (size_vocabulary_fields (learn lines (reset_state self)))
    as (_ & _ & _ & _ & -> & -> & -> & _).
  destruct (learn_counts lines (reset_state self)) as (Hd & Ht & Hw).
  split; [| split].
  - intros label. rewrite Hd. now destruct label.
  - rewrite Ht. reflexivity.
  - intros label. rewrite Hw. now destruct label.
Qed.

(** X10: after [train] the vocabulary is the set of the features counted
    for either label, no stored counter is zero, and the vocabulary size is
    the size of the vocabulary, or 1 when the vocabulary is empty. *)
Theorem X10_vocabulary (self : Classifier) (lines : list string) :
  exists self',
    train lines self = Ok (tt, self')
    /\ vocabSet self'
       = dom (pl_get (wordCounts self') L1) ∪ dom (pl_get (wordCounts self') L5)
    /\ (forall (label : Label) (token : string) (n : nat),
          pl_get (wordCounts self') label !! token = Some n -> 1 <= n)
    /\ vocabSize self' = Nat.max 1 (size (vocabSet self')).
Proof.
  eexists. split; [apply train_trained |].
  unfold trained. cbn [vocabSet wordCounts vocabSize set_logPriors].
  pose proof (learn_vocabulary lines _ (reset_vocabulary self)) as [Hv Hn].
  destruct (learn_config lines (reset_state self)) as (_ & _ & _ & Hsize).
  unfold size_vocabulary.
  destruct (0 <? size (vocabSet (learn lines (reset_state self)))) eqn:E.
  - apply Nat.ltb_lt in E. cbn [vocabSet wordCounts vocabSize set_vocabSize].
    split; [exact Hv |]. split; [exact Hn | lia].
  - apply Nat.ltb_ge in E. split; [exact Hv |]. split; [exact Hn |].
    rewrite Hsize. cbn [reset_state vocabSize]. lia.
Qed.

(** X11: [train] never changes [alpha], the bigram mode or the stop words,
    and for every finite [alpha] (a real number: an infinity or a NaN is
    none), zero and negative values included, both log-priors it stores are
    finite. *)
Theorem X11_train_keeps_configuration (self : Classifier)
    (lines : list string) :
  exists self',
    train lines self = Ok (tt, self')
    /\ alphaVal self' = alphaVal self
    /\ useBigrams self' = useBigrams self
    /\ stopWords self' = stopWords self
    /\ exists p1 p5 : R, logPriors self' = mkPerLabel (Fin p1) (Fin p5).
Proof.
  eexists. split; [apply train_trained |].
  unfold trained. cbn [alphaVal useBigrams stopWords logPriors set_logPriors].
  destruct (size_vocabulary_fields (learn lines (reset_state self)))
    as (-> & -> & -> & _).
  destruct (learn_config lines (reset_state self)) as (-> & -> & -> & _).
  repeat (split; [reflexivity |]). eexists _, _. reflexivity.
Qed.

(** ** The order of the training lines *)

Section Order.

Lemma incr_comm (a b : string) (d : gmap string nat) :
  incr a (incr b d) = incr b (incr a d).
Proof.
  destruct (decide (a = b)) as [-> | Hne]; [reflexivity |].
  unfold incr.
  rewrite (lookup_insert_ne _ b a) by congruence.
  rewrite (lookup_insert_ne _ a b) by congruence.
  now apply insert_insert_ne.
Qed.

Lemma add_token_comm (l l' : Label) (t t' : string) :
  commute (add_token l t) (add_token l' t').
Proof.
  intros self. unfold add_token.
  cbn [alphaVal useBigrams stopWords wordCounts totalWordCounts docCounts
       totalDocs vocabSet logPriors vocabSize].
  f_equal.
  - destruct l, l'; cbn [pl_get pl_set at1 at5]; f_equal; apply incr_comm.
  - destruct l, l'; cbn [pl_get pl_set at1 at5]; reflexivity.
  - rewrite !(assoc_L (∪)). f_equal. apply (comm_L (∪)).
Qed.

Lemma add_token_document_comm (l l' : Label) (t : string) :
  commute (add_token l t) (add_document l').
Proof. intros self. reflexivity. Qed.

Lemma add_document_comm (l l' : Label) :
  commute (add_document l) (add_document l').
Proof.
  intros self. unfold add_document.
  cbn [alphaVal useBigrams stopWords wordCounts totalWordCounts docCounts
       totalDocs vocabSet logPriors vocabSize].
  f_equal.
  - destruct l, l'; cbn [pl_get pl_set at1 at5]; reflexivity.
Qed.

Lemma commute_sym (f g : Classifier -> Classifier) :
  commute f g -> commute g f.
Proof. intros H self. symmetry. apply H. Qed.

(** An update that commutes with the counting of every token commutes with
    the counting of a list of tokens. *)
Lemma commute_add_tokens (f : Classifier -> Classifier) (l : Label)
    (feats : list string) :
  (forall t, commute f (add_token l t)) -> commute f (add_tokens l feats).
Proof.
  intros Hf. unfold add_tokens.
  induction feats as [|t feats IH]; intros self; cbn [fold_left];
    [reflexivity |].
  now rewrite IH, Hf.
Qed.

Lemma commute_add_record (f : Classifier -> Classifier) (l : Label)
    (feats : list string) :
  (forall t, commute f (add_token l t)) -> commute f (add_document l) ->
  commute f (add_record l feats).
Proof.
  intros Ht Hd self. unfold add_record.
  now rewrite (commute_add_tokens f l feats Ht), Hd.
Qed.

Lemma add_record_comm (l l' : Label) (feats feats' : list string) :
  commute (add_record l feats) (add_record l' feats').
Proof.
  apply commute_sym, commute_add_record.
  - intros t. apply commute_sym, commute_add_record.
    + intros t'. apply add_token_comm.
    + apply add_token_document_comm.
  - apply commute_sym, commute_add_record.
    + intros t'. apply commute_sym, add_token_document_comm.
    + apply add_document_comm.
Qed.

Lemma learn_line_comm (a b : string) : commute (learn_line a) (learn_line b).
Proof.
  intros self.
  destruct (learn_line_fields a self) as (_ & Hba & Hsa & _).
  destruct (learn_line_fields b self) as (_ & Hbb & Hsb & _).
  unfold learn_line at 1 3.
  rewrite (line_features_config self _ a Hbb Hsb).
  rewrite (line_features_config self _ b Hba Hsa).
  unfold learn_line.
  destruct (record_label a) as [la |], (record_label b) as [lb |];
    try reflexivity.
  apply add_record_comm.
Qed.

Lemma learn_permutation (lines lines' : list string) :
  lines ≡ₚ lines' -> forall self, learn lines self = learn lines' self.
Proof.
  unfold learn. induction 1 as [| x l l' _ IH | x y l | l l' l'' _ IH1 _ IH2];
    intros self; cbn [fold_left].
  - reflexivity.
  - apply IH.
  - now rewrite learn_line_comm.
  - now rewrite IH1.
Qed.

End Order.

(** X12: the state [train] leaves does not depend on the order of the
    training lines. *)
Theorem X12_train_order (self : Classifier) (lines lines' : list string) :
  Permutation lines lines' -> train lines self = train lines' self.
Proof.
  intros H. rewrite !train_trained. unfold trained.
  now rewrite (learn_permutation lines lines' H).
Qed.

(** X12 at two accepted lines and a skipped one, reversed. *)
Lemma X12_train_order_witness :
  Permutation ["1||bad film"; "junk"; "5||good film"]
    ["5||good film"; "junk"; "1||bad film"]
  /\ train ["1||bad film"; "junk"; "5||good film"] (blank 1 true)
     = train ["5||good film"; "junk"; "1||bad film"] (blank 1 true).
Proof.
  assert (H : Permutation ["1||bad film"; "junk"; "5||good film"]
                ["5||good film"; "junk"; "1||bad film"]).
  { apply (Permutation_rev ["1||bad film"; "junk"; "5||good film"]). }
  split; [exact H | exact (X12_train_order (blank 1 true) _ _ H)].
Defined.

(** ** Priors and predictions at the edges *)

Section Edges.
Local Open Scope R_scope.

Lemma clamp_zero : clamp 0 = floor_value.
Proof. unfold clamp. destruct (Rle_dec 0 0); [reflexivity | lra]. Qed.

Lemma trained_docCounts (lines : list string) (self : Classifier) :
  docCounts (trained lines self) = docCounts (learn lines (reset_state self)).
Proof.
  unfold trained. cbn [docCounts set_logPriors].
  now destruct (size_vocabulary_fields (learn lines (reset_state self)))
    as (_ & _ & _ & _ & _ & -> & _).
Qed.

Lemma trained_logPriors (lines : list string) (self : Classifier)
    (label : Label) :
  pl_get (logPriors (trained lines self)) label
  = Fin (stored_prior (size_vocabulary (learn lines (reset_state self))) label).
Proof. now destruct label. Qed.

Lemma counted_alpha (lines : list string) (self : Classifier) :
  alphaVal (size_vocabulary (learn lines (reset_state self))) = alphaVal self.
Proof.
  destruct (size_vocabulary_fields (learn lines (reset_state self)))
    as (-> & _).
  now destruct (learn_config lines (reset_state self)) as (-> & _).
Qed.

Lemma counted_docCounts (lines : list string) (self : Classifier) :
  docCounts (size_vocabulary (learn lines (reset_state self)))
  = docCounts (trained lines self).
Proof. reflexivity. Qed.

(** The log-prior stored for a positive [alpha]: neither guard acts. *)
Lemma stored_prior_smoothed (self : Classifier) (label : Label) :
  0 < alphaVal self ->
  stored_prior self label
  = ln ((INR (pl_get (docCounts self) label) + alphaVal self)
        / (INR (totalDocs self) + 2 * alphaVal self))
  /\ 0 < (INR (pl_get (docCounts self) label) + alphaVal self)
         / (INR (totalDocs self) + 2 * alphaVal self).
Proof.
  intros Ha. unfold stored_prior.
  assert (Hden : prior_denominator self
                 = INR (totalDocs self) + 2 * alphaVal self).
  { unfold prior_denominator, labels. cbn [length INR]. lra. }
  pose proof (pos_INR (totalDocs self)) as Ht.
  pose proof (pos_INR (pl_get (docCounts self) label)) as Hn.
  assert (Hpos : 0 < (INR (pl_get (docCounts self) label) + alphaVal self)
                     / (INR (totalDocs self) + 2 * alphaVal self))
    by (apply div_pos; lra).
  rewrite Hden, guard_denominator_id by lra.
  now rewrite clamp_id.
Qed.

Lemma learn_nothing (lines : list string) (self : Classifier) :
  Forall (fun rawLine => record_label rawLine = None) lines ->
  learn lines self = self.
Proof.
  unfold learn. induction 1 as [|rawLine lines Hr _ IH]; [reflexivity |].
  cbn [fold_left]. unfold learn_line at 2. now rewrite Hr.
Qed.

Lemma score_finite (self : Classifier) (label : Label) (feats : list string)
    (start : R) :
  exists q : R,
    fold_left
      (fun logScore token => xadd logScore (Fin (token_log self label token)))
      feats (Fin start)
    = Fin q.
Proof.
  revert start. induction feats as [|token feats IH]; intros start;
    cbn [fold_left xadd]; [now exists start | apply IH].
Qed.

Lemma tokenize_empty (stop : gset string) : tokenize stop "" = [].
Proof. reflexivity. Qed.

Lemma features_nil (bigram_mode : bool) : features bigram_mode [] = [].
Proof. now destruct bigram_mode. Qed.

End Edges.

(** X13: with [alpha = 0] the clamp acts: for a label without accepted
    line the prior is 0 and [train] stores the logarithm of the floor
    1e-12 instead of failing on the logarithm of 0. *)
Theorem X13_alpha_zero (self self' : Classifier) (lines : list string)
    (label : Label) :
  alphaVal self = 0%R ->
  train lines self = Ok (tt, self') ->
  pl_get (docCounts self') label = 0 ->
  pl_get (logPriors self') label = Fin (ln floor_value).
Proof.
  intros Ha Ht Hd. rewrite train_trained in Ht. injection Ht as <-.
  rewrite trained_logPriors. unfold stored_prior.
  rewrite counted_docCounts, Hd, counted_alpha, Ha.
  cbn [INR]. unfold Rdiv. rewrite Rplus_0_l, Rmult_0_l.
  now rewrite clamp_zero.
Qed.

(** X13 at one negative review: the positive label has no document. *)
Lemma X13_alpha_zero_witness :
  exists self' : Classifier,
    alphaVal (blank 0 true) = 0%R
    /\ train ["1||bad film"] (blank 0 true) = Ok (tt, self')
    /\ pl_get (docCounts self') L5 = 0
    /\ pl_get (logPriors self') L5 = Fin (ln floor_value).
Proof.
  exists (trained ["1||bad film"] (blank 0 true)).
  assert (Ha : alphaVal (blank 0 true) = 0%R) by reflexivity.
  pose proof (train_trained ["1||bad film"] (blank 0 true)) as Ht.
  assert (Hd : pl_get (docCounts (trained ["1||bad film"] (blank 0 true))) L5
               = 0).
  { rewrite trained_docCounts. vm_compute. reflexivity. }
  split; [exact Ha |]. split; [exact Ht |]. split; [exact Hd |].
  exact (X13_alpha_zero (blank 0 true) _ ["1||bad film"] L5 Ha Ht Hd).
Defined.

(** X14: when [train] accepts no line, the empty list included, it leaves
    no document, empty counters, an empty vocabulary and a vocabulary size
    of 1, whatever [alpha] is, and [classify] then predicts "1" for every
    line. *)
Theorem X14_train_without_records (self self' : Classifier)
    (lines : list string) :
  Forall (fun rawLine => record_label rawLine = None) lines ->
  train lines self = Ok (tt, self') ->
  totalDocs self' = 0
  /\ docCounts self' = pl_const 0
  /\ wordCounts self' = pl_const ∅
  /\ totalWordCounts self' = pl_const 0
  /\ vocabSet self' = ∅
  /\ vocabSize self' = 1
  /\ forall lines' : list string,
       classify lines' self' = Ok (map (fun _ => "1") lines', self').
Proof.
  intros Hl Ht. rewrite train_trained in Ht. injection Ht as <-.
  unfold trained. rewrite (learn_nothing lines _ Hl).
  change (size_vocabulary (reset_state self)) with (reset_state self).
  cbn [totalDocs docCounts wordCounts totalWordCounts vocabSet vocabSize
       set_logPriors reset_state].
  repeat (split; [reflexivity |]).
  intros lines'. rewrite classify_run. reflexivity.
Qed.

(** X14 at an empty line and a line without fields. *)
Lemma X14_train_without_records_witness :
  exists self' : Classifier,
    Forall (fun rawLine => record_label rawLine = None) [""; "no fields"]
    /\ train [""; "no fields"] (blank 1 true) = Ok (tt, self')
    /\ totalDocs self' = 0
    /\ docCounts self' = pl_const 0
    /\ wordCounts self' = pl_const ∅
    /\ totalWordCounts self' = pl_const 0
    /\ vocabSet self' = ∅
    /\ vocabSize self' = 1
    /\ forall lines' : list string,
         classify lines' self' = Ok (map (fun _ => "1") lines', self').
Proof.
  exists (trained [""; "no fields"] (blank 1 true)).
  assert (Hl : Forall (fun rawLine => record_label rawLine = None)
                 [""; "no fields"])
    by (apply Forall_cons_2; [reflexivity |];
        apply Forall_cons_2; [reflexivity | apply Forall_nil_2]).
  pose proof (train_trained [""; "no fields"] (blank 1 true)) as Ht.
  split; [exact Hl |]. split; [exact Ht |].
  exact (X14_train_without_records (blank 1 true) _ _ Hl Ht).
Defined.

(** X15: in a state without document for the label "5", a new instance
    included, [classify] predicts "1" for every line, whatever the
    counters and the priors hold. *)
Theorem X15_no_positive_document (self : Classifier) (lines : list string) :
  pl_get (docCounts self) L5 = 0 ->
  classify lines self = Ok (map (fun _ => "1") lines, self).
Proof.
  intros H. rewrite classify_run. f_equal. f_equal.
  apply map_ext. intros rawLine.
  unfold predicted_label, log_score. now rewrite H.
Qed.

(** X15 at the state three negative reviews leave. *)
Lemma X15_no_positive_document_witness :
  pl_get (docCounts (trained ["1||bad"; "1||dull"; "1||bad plot"]
                       (blank 1 true))) L5 = 0
  /\ classify ["5||good"; "?"]
       (trained ["1||bad"; "1||dull"; "1||bad plot"] (blank 1 true))
     = Ok (map (fun _ => "1") ["5||good"; "?"],
           trained ["1||bad"; "1||dull"; "1||bad plot"] (blank 1 true)).
Proof.
  assert (H : pl_get (docCounts (trained ["1||bad"; "1||dull"; "1||bad plot"]
                                   (blank 1 true))) L5 = 0).
  { rewrite trained_docCounts. vm_compute. reflexivity. }
  split; [exact H | exact (X15_no_positive_document _ _ H)].
Defined.

(** X16: after training on lines that leave documents for the label "5"
    only, [classify] predicts "5" for every line, for every finite [alpha]
    (a real number: an infinity or a NaN is none). *)
Theorem X16_only_positive_documents (self0 self : Classifier)
    (training lines : list string) :
  train training self0 = Ok (tt, self) ->
  pl_get (docCounts self) L1 = 0 ->
  pl_get (docCounts self) L5 <> 0 ->
  classify lines self = Ok (map (fun _ => "5") lines, self).
Proof.
  intros Ht H1 H5. rewrite train_trained in Ht. injection Ht as <-.
  rewrite classify_run. f_equal. f_equal.
  apply map_ext. intros rawLine.
  unfold predicted_label, log_score. rewrite H1.
  apply Nat.eqb_neq in H5. rewrite H5. cbn [Nat.eqb].
  rewrite trained_logPriors.
  destruct (score_finite (trained training self0) L5
              (line_features (trained training self0) rawLine)
              (stored_prior
                 (size_vocabulary (learn training (reset_state self0))) L5))
    as [q ->].
  reflexivity.
Qed.

(** X16 at the state two positive reviews leave. *)
Lemma X16_only_positive_documents_witness :
  train ["5||good"; "5||great fun"] (blank 1 true)
  = Ok (tt, trained ["5||good"; "5||great fun"] (blank 1 true))
  /\ pl_get (docCounts (trained ["5||good"; "5||great fun"] (blank 1 true))) L1
     = 0
  /\ pl_get (docCounts (trained ["5||good"; "5||great fun"] (blank 1 true))) L5
     <> 0
  /\ classify ["1||bad"; ""]
       (trained ["5||good"; "5||great fun"] (blank 1 true))
     = Ok (map (fun _ => "5") ["1||bad"; ""],
           trained ["5||good"; "5||great fun"] (blank 1 true)).
Proof.
  pose proof (train_trained ["5||good"; "5||great fun"] (blank 1 true)) as Ht.
  assert (H1 : pl_get (docCounts (trained ["5||good"; "5||great fun"]
                                    (blank 1 true))) L1 = 0).
  { rewrite trained_docCounts. vm_compute. reflexivity. }
  assert (H5 : pl_get (docCounts (trained ["5||good"; "5||great fun"]
                                    (blank 1 true))) L5 <> 0).
  { rewrite trained_docCounts. vm_compute. discriminate. }
  split; [exact Ht |]. split; [exact H1 |]. split; [exact H5 |].
  exact (X16_only_positive_documents (blank 1 true) _ _ _ Ht H1 H5).
Defined.

(** X17: after training with a positive [alpha], a line without feature,
    such as a line without fields, never gets the label "5" unless "5" has
    strictly more documents than "1": when "5" has at most as many
    documents as "1", ties included, the line gets "1". *)
Theorem X17_no_features_no_minority (self0 self : Classifier)
    (training : list string) (rawLine : string) :
  (0 < alphaVal self0)%R ->
  train training self0 = Ok (tt, self) ->
  pl_get (docCounts self) L5 <= pl_get (docCounts self) L1 ->
  _extractFeatures (line_text rawLine) self = Ok ([], self) ->
  classify [rawLine] self = Ok (["1"], self).
Proof.
  intros Ha Ht Hle Hf.
  rewrite extractFeatures_run in Hf. injection Hf as Hf.
  rewrite classify_run. cbn [map]. f_equal. f_equal. f_equal.
  unfold predicted_label, line_features. rewrite Hf. unfold log_score.
  clear Hf. rewrite train_trained in Ht. injection Ht as <-.
  destruct (pl_get (docCounts (trained training self0)) L5 =? 0) eqn:E5;
    [reflexivity |].
  apply Nat.eqb_neq in E5.
  assert (E1 : (pl_get (docCounts (trained training self0)) L1 =? 0) = false)
    by (apply Nat.eqb_neq; lia).
  rewrite E1. cbn [fold_left].
  rewrite !trained_logPriors.
  set (s := size_vocabulary (learn training (reset_state self0))).
  assert (Hs : (0 < alphaVal s)%R)
    by (unfold s; rewrite counted_alpha; exact Ha).
  destruct (stored_prior_smoothed s L1 Hs) as [-> P1].
  destruct (stored_prior_smoothed s L5 Hs) as [-> P5].
  rewrite <- counted_docCounts in Hle. fold s in Hle.
  set (n1 := pl_get (docCounts s) L1) in *.
  set (n5 := pl_get (docCounts s) L5) in *.
  set (d := (INR (totalDocs s) + 2 * alphaVal s)%R) in *.
  assert (Hd : (0 < d)%R).
  { unfold d. pose proof (pos_INR (totalDocs s)). lra. }
  cbn [xgtb].
  destruct (Rgt_dec (ln ((INR n5 + alphaVal s) / d))
              (ln ((INR n1 + alphaVal s) / d))) as [Hgt | _];
    [| reflexivity].
  exfalso.
  apply ln_lt_inv in Hgt; [| exact P1 | exact P5].
  assert (Hn : (INR n1 < INR n5)%R).
  { apply (Rmult_lt_reg_r (/ d)); [now apply Rinv_0_lt_compat |].
    unfold Rdiv in Hgt. lra. }
  apply INR_lt in Hn. lia.
Qed.

(** X17 at one review for each label, and a line without fields. *)
Lemma X17_no_features_no_minority_witness :
  (0 < alphaVal (blank 1 true))%R
  /\ train ["5||good"; "1||bad"] (blank 1 true)
     = Ok (tt, trained ["5||good"; "1||bad"] (blank 1 true))
  /\ pl_get (docCounts (trained ["5||good"; "1||bad"] (blank 1 true))) L5
     <= pl_get (docCounts (trained ["5||good"; "1||bad"] (blank 1 true))) L1
  /\ _extractFeatures (line_text "good")
       (trained ["5||good"; "1||bad"] (blank 1 true))
     = Ok ([], trained ["5||good"; "1||bad"] (blank 1 true))
  /\ classify ["good"] (trained ["5||good"; "1||bad"] (blank 1 true))
     = Ok (["1"], trained ["5||good"; "1||bad"] (blank 1 true)).
Proof.
  assert (Ha : (0 < alphaVal (blank 1 true))%R) by (cbn; lra).
  pose proof (train_trained ["5||good"; "1||bad"] (blank 1 true)) as Ht.
  assert (E1 : pl_get (docCounts (learn ["5||good"; "1||bad"]
                                    (reset_state (blank 1 true)))) L1 = 1)
    by (vm_compute; reflexivity).
  assert (E5 : pl_get (docCounts (learn ["5||good"; "1||bad"]
                                    (reset_state (blank 1 true)))) L5 = 1)
    by (vm_compute; reflexivity).
  assert (Hle :
            pl_get (docCounts (trained ["5||good"; "1||bad"] (blank 1 true))) L5
            <= pl_get (docCounts (trained ["5||good"; "1||bad"]
                                    (blank 1 true))) L1).
  { rewrite trained_docCounts, E1, E5. apply Nat.le_refl. }
  assert (Hf : _extractFeatures (line_text "good")
                 (trained ["5||good"; "1||bad"] (blank 1 true))
               = Ok ([], trained ["5||good"; "1||bad"] (blank 1 true))).
  { rewrite extractFeatures_run. change (line_text "good") with "".
    now rewrite tokenize_empty, features_nil. }
  split; [exact Ha |]. split; [exact Ht |]. split; [exact Hle |].
  split; [exact Hf |].
  exact (X17_no_features_no_minority (blank 1 true) _ _ "good" Ha Ht Hle Hf).
Defined.

(** ** The likelihoods of a label *)

Section Likelihoods.

Lemma sum_list_zero {A : Type} (l : list A) :
  sum_list (map (fun _ => 0) l) = 0.
Proof. induction l as [|x l IH]; [reflexivity |]. exact IH. Qed.

Lemma sum_list_update (l : list string) (i : string) (x : nat)
    (f : string -> nat) :
  NoDup l -> f i = 0 ->
  sum_list (map (fun t => if decide (i = t) then x else f t) l)
  = (if decide (i ∈ l) then x else 0) + sum_list (map f l).
Proof.
  intros Hnd Hf. induction Hnd as [|t l Ht Hnd IH].
  - cbn. now destruct (decide (i ∈ [])).
  - cbn [map]. change (sum_list (?a :: ?r)) with (a + sum_list r).
    rewrite IH. destruct (decide (i = t)) as [<- | Hne].
    + destruct (decide (i ∈ l)); [contradiction |].
      destruct (decide (i ∈ i :: l)) as [_ | Hn];
        [rewrite Hf; lia | exfalso; apply Hn; left].
    + destruct (decide (i ∈ l)) as [Hin | Hnin].
      * destruct (decide (i ∈ t :: l)) as [_ | Hn];
          [lia | exfalso; apply Hn; now right].
      * destruct (decide (i ∈ t :: l)) as [Hin | _]; [| lia].
        apply elem_of_cons in Hin as [-> | Hin]; contradiction.
Qed.

(** The counters of a dictionary, read over a vocabulary that holds its
    keys, add up to the sum of its values. *)
Lemma sum_over_vocabulary (d : gmap string nat) (vocab : gset string) :
  dom d ⊆ vocab ->
  sum_list (map (fun t => default 0 (d !! t)) (elements vocab)) = dict_sum d.
Proof.
  induction d as [|i x d Hi IH] using map_ind; intros Hdom.
  - rewrite dict_sum_empty.
    rewrite (map_ext _ (fun _ => 0)) by (intros t; now rewrite lookup_empty).
    apply sum_list_zero.
  - rewrite dict_sum_insert by exact Hi.
    rewrite dom_insert_L in Hdom.
    rewrite (map_ext _
               (fun t => if decide (i = t) then x else default 0 (d !! t))).
    + rewrite sum_list_update;
        [| apply NoDup_elements | now rewrite Hi].
      rewrite IH by set_solver.
      destruct (decide (i ∈ elements vocab)) as [_ | Hn]; [reflexivity |].
      exfalso. apply Hn, elem_of_elements. set_solver.
    + intros t. rewrite lookup_insert.
      now destruct (decide (i = t)).
Qed.

Lemma real_sum_values (counts : list nat) (a d : R) :
  d <> 0%R ->
  real_sum (map (fun n => ((INR n + a) / d)%R) counts)
  = ((INR (sum_list counts) + a * INR (length counts)) / d)%R.
Proof.
  intros Hd. unfold real_sum. induction counts as [|n counts IH].
  - cbn. field. exact Hd.
  - cbn [map fold_right]. rewrite IH.
    change (sum_list (n :: counts)) with (n + sum_list counts).
    rewrite plus_INR. change (length (n :: counts)) with (S (length counts)).
    rewrite S_INR. field. exact Hd.
Qed.

Lemma trained_vocabSet (lines : list string) (self : Classifier) :
  vocabSet (trained lines self) = vocabSet (learn lines (reset_state self)).
Proof.
  unfold trained. cbn [vocabSet set_logPriors].
  now destruct (size_vocabulary_fields (learn lines (reset_state self)))
    as (_ & _ & _ & _ & _ & _ & _ & ->).
Qed.

End Likelihoods.

(** X18: after training with a positive [alpha] on lines that leave a
    vocabulary, the values [classify] gives the features of the vocabulary
    under a label, (count + alpha) / (totalWordCounts + alpha * vocabSize),
    add up to 1: they are a probability distribution over the vocabulary. *)
Theorem X18_likelihoods_sum_to_one (self self' : Classifier)
    (lines : list string) (label : Label) :
  (0 < alphaVal self)%R ->
  train lines self = Ok (tt, self') ->
  vocabSet self' <> ∅ ->
  exists value : string -> R,
    (forall token,
       token_value self' (denominator self' label) label token
       = Ok (value token))
    /\ real_sum (map value (elements (vocabSet self'))) = 1%R.
Proof.
  intros Ha Ht Hne.
  destruct (train_run lines self) as (self1 & E1 & [Hal _ _ _ Hw _] & E).
  rewrite train_counts_run in E1. injection E1 as E1.
  rewrite train_trained in Ht. injection Ht as <-.
  unfold trained in *. rewrite E1 in *. clear E.
  cbn [vocabSet set_logPriors] in Hne.
  assert (Hvoc : vocabulary_ok self1).
  { rewrite <- E1. unfold size_vocabulary.
    pose proof (learn_vocabulary lines _ (reset_vocabulary self)) as H.
    now destruct (0 <? size (vocabSet (learn lines (reset_state self)))). }
  assert (Hsize : vocabSize self1 = size (vocabSet self1)).
  { rewrite <- E1. unfold size_vocabulary.
    destruct (0 <? size (vocabSet (learn lines (reset_state self)))) eqn:Es;
      [reflexivity |].
    exfalso. apply Hne. rewrite <- E1. unfold size_vocabulary. rewrite Es.
    apply Nat.ltb_ge in Es. apply leibniz_equiv, size_empty_inv. lia. }
  assert (Hpos : 0 < size (vocabSet self1)).
  { destruct (size (vocabSet self1)) eqn:Es; [| lia].
    exfalso. apply Hne. now apply leibniz_equiv, size_empty_inv. }
  set (self' := set_logPriors _ self1).
  assert (Hden : (0 < denominator self' label)%R).
  { unfold denominator, self'.
    cbn [totalWordCounts alphaVal vocabSize set_logPriors].
    pose proof (pos_INR (pl_get (totalWordCounts self1) label)).
    assert (1 <= INR (vocabSize self1))%R
      by (apply (le_INR 1); rewrite Hsize; lia).
    rewrite Hal. nra. }
  assert (Hd0 : denominator self' label <> 0%R)
    by (intros H0; rewrite H0 in Hden; revert Hden; apply Rlt_irrefl).
  exists (fun token =>
            ((INR (default 0%nat (pl_get (wordCounts self1) label !! token))
              + alphaVal self1) / denominator self' label)%R).
  split.
  - intros token. unfold token_value. now rewrite truediv_run.
  - change (vocabSet self') with (vocabSet self1).
    rewrite <- (map_map
                  (fun token =>
                     default 0 (pl_get (wordCounts self1) label !! token))
                  (fun n => ((INR n + alphaVal self1)
                             / denominator self' label)%R)).
    rewrite real_sum_values by exact Hd0.
    rewrite length_map, sum_over_vocabulary.
    + rewrite <- Hw. unfold denominator, self'.
      cbn [totalWordCounts alphaVal vocabSize set_logPriors].
      rewrite Hsize. unfold size, set_size. cbn [length].
      apply Rdiv_diag.
      unfold denominator, self' in Hd0.
      cbn [totalWordCounts alphaVal vocabSize set_logPriors] in Hd0.
      rewrite Hsize in Hd0. exact Hd0.
    + destruct Hvoc as [Hv _]. rewrite Hv.
      destruct label; cbn [pl_get];
        [apply union_subseteq_l | apply union_subseteq_r].
Qed.

(** X18 at one negative review, for the label without document. *)
Lemma X18_likelihoods_sum_to_one_witness :
  (0 < alphaVal (blank 1 true))%R
  /\ train ["1||bad film"] (blank 1 true)
     = Ok (tt, trained ["1||bad film"] (blank 1 true))
  /\ vocabSet (trained ["1||bad film"] (blank 1 true)) <> ∅
  /\ exists value : string -> R,
       (forall token,
          token_value (trained ["1||bad film"] (blank 1 true))
            (denominator (trained ["1||bad film"] (blank 1 true)) L5)
            L5 token
          = Ok (value token))
       /\ real_sum
            (map value
               (elements (vocabSet (trained ["1||bad film"] (blank 1 true)))))
          = 1%R.
Proof.
  assert (Ha : (0 < alphaVal (blank 1 true))%R) by (cbn; lra).
  pose proof (train_trained ["1||bad film"] (blank 1 true)) as Ht.
  assert (Hne : vocabSet (trained ["1||bad film"] (blank 1 true)) <> ∅).
  { intros E.
    assert (Hs : size (vocabSet (trained ["1||bad film"] (blank 1 true))) = 0)
      by (rewrite E; apply size_empty).
    assert (H3 : size (vocabSet (learn ["1||bad film"]
                                   (reset_state (blank 1 true)))) = 3)
      by (vm_compute; reflexivity).
    rewrite trained_vocabSet, H3 in Hs. discriminate Hs. }
  split; [exact Ha |]. split; [exact Ht |]. split; [exact Hne |].
  exact (X18_likelihoods_sum_to_one (blank 1 true) _ _ L5 Ha Ht Hne).
Defined.

(** ** Separators, fields and the states of an instance *)

Section Separators.
Import PyStr PyStrFacts.

Lemma split_sep_go_nonempty (sep : ascii) (k : nat) (cur s : string) :
  split_sep_go sep k cur s <> [].
Proof.
  revert k cur. induction s as [|c s IH]; intros k cur; cbn [split_sep_go];
    [discriminate |].
  destruct k; [discriminate |].
  destruct (Ascii.eqb c sep); [discriminate | apply IH].
Qed.

Lemma concat_cons (sep x : string) (rest : list string) :
  rest <> [] ->
  String.concat sep (x :: rest) = x +:+ sep +:+ String.concat sep rest.
Proof. destruct rest; [contradiction | reflexivity]. Qed.

Lemma split_sep_go_join (sep : ascii) (k : nat) (cur s : string) :
  String.concat (String sep "") (split_sep_go sep k cur s) = cur +:+ s.
Proof.
  revert k cur. induction s as [|c s IH]; intros k cur; cbn [split_sep_go].
  - cbn [String.concat]. now rewrite append_empty.
  - destruct k; [reflexivity |].
    destruct (Ascii.eqb_spec c sep) as [-> | Hne].
    + rewrite concat_cons by apply split_sep_go_nonempty.
      now rewrite IH.
    + rewrite IH. now rewrite append_assoc.
Qed.


End Separators.



(** X20: splitting a line on "|" loses no character: the fields joined by
    "|" are the line again, whatever the bound on the number of splits,
    and there are one more fields than "|" in the line, up to the bound. *)
Theorem X20_split_join (maxsplit : nat) (line : string) :
  String.concat "|" (PyStr.split_sep "|" maxsplit line) = line
  /\ length (PyStr.split_sep "|" maxsplit line)
     = 1 + Nat.min maxsplit (PyStr.count_char "|" line).
Proof.
  unfold PyStr.split_sep. split.
  - apply (split_sep_go_join "|" maxsplit "" line).
  - apply split_sep_go_length.
Qed.

(** X21: the predictions for a list of lines are the predictions for its
    parts, one after the other: no line influences the prediction of
    another. *)
Theorem X21_classify_append (self : Classifier) (lines1 lines2 : list string) :
  exists preds1 preds2 : list string,
    classify lines1 self = Ok (preds1, self)
    /\ classify lines2 self = Ok (preds2, self)
    /\ classify (lines1 ++ lines2) self = Ok (preds1 ++ preds2, self).
Proof.
  eexists _, _. rewrite !classify_run. repeat split. now rewrite map_app.
Qed.

(** X22: in every state an instance reaches from its constructor by calls
    of [train] and [classify], the constructor's attributes are those it
    was built with, the stop words are the hard-coded ones, the document
    total is the sum of the document counts, each word total is the sum of
    its counters, the vocabulary is the set of the counted features, no
    counter is zero and the vocabulary size is at least 1. *)
Theorem X22_reachable_invariant (alpha : R) (bigrams : bool)
    (self : Classifier) :
  reachable alpha bigrams self ->
  alphaVal self = alpha
  /\ useBigrams self = bigrams
  /\ stopWords self = _buildStopwords
  /\ totalDocs self = pl_get (docCounts self) L1 + pl_get (docCounts self) L5
  /\ (forall label,
        pl_get (totalWordCounts self) label
        = dict_sum (pl_get (wordCounts self) label))
  /\ vocabulary_ok self
  /\ 1 <= vocabSize self.
Proof.
  induction 1 as [self Hinit | self self' lines _ IH Htrain
                 | self self' lines preds _ IH Hclassify].
  - injection Hinit as <-. repeat (split; [reflexivity |]).
    split; [| split; [apply (reset_vocabulary (blank alpha bigrams)) |]].
    + intros []; cbn; now rewrite dict_sum_empty.
    + apply Nat.le_refl.
  - destruct IH as (Ha & Hb & Hs & _).
    destruct (train_run lines self) as (self1 & E1 & [Ha1 Hb1 Hs1 Hd Hw Hv] & E).
    rewrite E in Htrain. injection Htrain as <-.
    cbn [alphaVal useBigrams stopWords totalDocs docCounts totalWordCounts
         wordCounts vocabSize set_logPriors].
    split; [congruence |]. split; [congruence |]. split; [congruence |].
    split; [exact Hd |]. split; [exact Hw |]. split; [| exact Hv].
    rewrite train_counts_run in E1. injection E1 as <-.
    unfold size_vocabulary.
    pose proof (learn_vocabulary lines _ (reset_vocabulary self)) as Hvoc.
    now destruct (0 <? size (vocabSet (learn lines (reset_state self)))).
  - rewrite classify_run in Hclassify. injection Hclassify as _ <-. exact IH.
Qed.

(** X22 at the state an instance is in after the constructor, a call of
    [train] on a review for each label and a call of [classify]. *)
Lemma X22_reachable_invariant_witness :
  reachable 1 true
    (trained ["1||bad film"; "5||good film"] (reset_state (blank 1 true)))
  /\ alphaVal (trained ["1||bad film"; "5||good film"]
                 (reset_state (blank 1 true))) = 1%R
  /\ useBigrams (trained ["1||bad film"; "5||good film"]
                   (reset_state (blank 1 true))) = true
  /\ stopWords (trained ["1||bad film"; "5||good film"]
                  (reset_state (blank 1 true))) = _buildStopwords
  /\ totalDocs (trained ["1||bad film"; "5||good film"]
                  (reset_state (blank 1 true)))
     = pl_get (docCounts (trained ["1||bad film"; "5||good film"]
                            (reset_state (blank 1 true)))) L1
       + pl_get (docCounts (trained ["1||bad film"; "5||good film"]
                              (reset_state (blank 1 true)))) L5
  /\ (forall label,
        pl_get (totalWordCounts (trained ["1||bad film"; "5||good film"]
                                   (reset_state (blank 1 true)))) label
        = dict_sum (pl_get (wordCounts (trained ["1||bad film"; "5||good film"]
                                          (reset_state (blank 1 true))))
                      label))
  /\ vocabulary_ok (trained ["1||bad film"; "5||good film"]
                      (reset_state (blank 1 true)))
  /\ 1 <= vocabSize (trained ["1||bad film"; "5||good film"]
                       (reset_state (blank 1 true))).
Proof.
  assert (H : reachable 1 true
                (trained ["1||bad film"; "5||good film"]
                   (reset_state (blank 1 true)))).
  { apply (reach_classify 1 true
             (trained ["1||bad film"; "5||good film"]
                (reset_state (blank 1 true)))
             _ ["5||fine film"; "?"]
             (map (fun rawLine =>
                     label_str
                       (predicted_label
                          (trained ["1||bad film"; "5||good film"]
                             (reset_state (blank 1 true))) rawLine))
                ["5||fine film"; "?"])).
    - apply (reach_train 1 true (reset_state (blank 1 true)) _
               ["1||bad film"; "5||good film"]).
      + apply reach_init. reflexivity.
      + apply train_trained.
    - apply classify_run. }
  split; [exact H | exact (X22_reachable_invariant 1 true _ H)].
Defined.
